(** * Snapshot ingestion of [core/scripts/players_stats_5k.py]

    A shallow embedding of the hiscore ingestion script: the retrying
    fetch, the positional decoder, the dropped-player store and the batch
    loop of [build_database], followed by the properties established
    about them.

    Conventions of the embedding.
    - A Python [str] is a [string]; its characters are the code points
      0..255.  Python [int] is [Z].
    - A Python exception is a value of [exn]; a computation that may raise
      returns a [result].  Code that touches the network, the clock or the
      dropped-player file runs in the state-and-exception monad [M] over
      [World].
    - Library calls are embedded after CPython 3.12 and its [csv] module:
      [str.strip], [str.split], [csv.reader] with the default dialect,
      [int], [repr], sequence unpacking and [time.sleep].
    - pandas is not embedded: what [pd.read_csv] makes of a file that holds
      records is a parameter of [load_dropped_players].
    - [print] produces no value the program reads back and is left out. *)

From Stdlib Require Import ZArith String Ascii List Lia Bool.
From stdpp Require Import base gmap sets list strings pretty.

Local Open Scope string_scope.

(** ** Exceptions and results *)

Inductive exn : Type :=
| ValueError (msg : string)
| RuntimeError (msg : string)
| KeyError (key : string)
| RequestException (msg : string)
| HTTPError (status_code : Z)
| CsvError (msg : string)
| EmptyDataError (msg : string).

(** [isinstance(e, requests.exceptions.RequestException)].  [HTTPError] is
    the subclass raised by [raise_for_status]; [RequestException] stands for
    the timeouts and connection errors raised by [requests.get].  The few
    members of the family that also derive from [ValueError] report a
    malformed URL or header, which the fixed URL template rules out. *)
Definition is_RequestException (e : exn) : bool :=
  match e with
  | RequestException _ | HTTPError _ => true
  | _ => false
  end.

(** [isinstance(e, ValueError)], with [str(e)] when it holds
    ([pandas.errors.EmptyDataError] derives from [ValueError]). *)
Definition as_ValueError (e : exn) : option string :=
  match e with
  | ValueError msg | EmptyDataError msg => Some msg
  | _ => None
  end.

Inductive result (A : Type) : Type :=
| Ok (a : A)
| Raise (e : exn).
Arguments Ok {A} a.
Arguments Raise {A} e.

Definition rbind {A B} (r : result A) (k : A -> result B) : result B :=
  match r with
  | Ok a => k a
  | Raise e => Raise e
  end.

Declare Scope result_scope.
Delimit Scope result_scope with result.
Notation "'let?' x ':=' r 'in' k" := (rbind r (fun x => k))
  (at level 10, x pattern, r at level 100, k at level 200) : result_scope.

(** ** Characters and strings *)

Definition ord (c : ascii) : nat := nat_of_ascii c.
Definition chr (n : nat) : ascii := ascii_of_nat n.

Definition DQUOTE : ascii := chr 34.
Definition SQUOTE : ascii := chr 39.
Definition BACKSLASH : ascii := chr 92.
Definition LF : ascii := chr 10.
Definition CR : ascii := chr 13.
Definition TAB : ascii := chr 9.

Definition between (lo n hi : nat) : bool := (lo <=? n)%nat && (n <=? hi)%nat.

(** [str.isspace] on one character (Py_UNICODE_ISSPACE below U+0100). *)
Definition isspace (c : ascii) : bool :=
  let n := ord c in
  between 9 n 13 || between 28 n 32 || (n =? 133)%nat || (n =? 160)%nat.

Fixpoint lstrip (s : string) : string :=
  match s with
  | EmptyString => EmptyString
  | String c s' => if isspace c then lstrip s' else s
  end.

Fixpoint rstrip (s : string) : string :=
  match s with
  | EmptyString => EmptyString
  | String c s' =>
      match rstrip s' with
      | EmptyString => if isspace c then EmptyString else String c EmptyString
      | t => String c t
      end
  end.

(** [s.strip()] *)
Definition strip (s : string) : string := rstrip (lstrip s).

(** [s.split(sep)] for a one-character separator: never empty. *)
Fixpoint split (sep : ascii) (s : string) : list string :=
  match s with
  | EmptyString => [EmptyString]
  | String c s' =>
      if Ascii.eqb c sep then EmptyString :: split sep s'
      else match split sep s' with
           | piece :: pieces => String c piece :: pieces
           | [] => [String c EmptyString]
           end
  end.

(** [needle in hay] *)
Fixpoint contains (needle hay : string) : bool :=
  String.prefix needle hay ||
  match hay with
  | EmptyString => false
  | String _ hay' => contains needle hay'
  end.

Fixpoint str_forallb (p : ascii -> bool) (s : string) : bool :=
  match s with
  | EmptyString => true
  | String c s' => p c && str_forallb p s'
  end.

Definition str_existsb (p : ascii -> bool) (s : string) : bool :=
  negb (str_forallb (fun c => negb (p c)) s).

Fixpoint str_take (n : nat) (s : string) : string :=
  match n, s with
  | S n', String c s' => String c (str_take n' s')
  | _, _ => EmptyString
  end.

(** *** [repr] of a string *)

Definition hex_digit (n : nat) : ascii :=
  if (n <? 10)%nat then chr (48 + n) else chr (87 + n).

(** Py_UNICODE_ISPRINTABLE below U+0100. *)
Definition isprintable (c : ascii) : bool :=
  let n := ord c in
  between 32 n 126 || (between 161 n 255 && negb (n =? 173)%nat).

Definition repr_char (quote c : ascii) : string :=
  if Ascii.eqb c quote || Ascii.eqb c BACKSLASH then String BACKSLASH (String c EmptyString)
  else if Ascii.eqb c TAB then String BACKSLASH "t"
  else if Ascii.eqb c LF then String BACKSLASH "n"
  else if Ascii.eqb c CR then String BACKSLASH "r"
  else if isprintable c then String c EmptyString
  else String BACKSLASH
         (String "x" (String (hex_digit (ord c / 16))
                        (String (hex_digit (ord c mod 16)) EmptyString))).

Fixpoint repr_body (quote : ascii) (s : string) : string :=
  match s with
  | EmptyString => EmptyString
  | String c s' => repr_char quote c +:+ repr_body quote s'
  end.

(** [repr(s)]: single quotes, unless the text has a single quote and no
    double quote. *)
Definition repr (s : string) : string :=
  let quote :=
    if str_existsb (Ascii.eqb SQUOTE) s && negb (str_existsb (Ascii.eqb DQUOTE) s)
    then DQUOTE else SQUOTE in
  String quote (repr_body quote s +:+ String quote EmptyString).

(** *** [int] of a string *)

(** Py_ISSPACE: the C-locale blanks skipped around the digits. *)
Definition is_c_space (c : ascii) : bool :=
  let n := ord c in between 9 n 13 || (n =? 32)%nat.

Definition digit_value (c : ascii) : option Z :=
  let n := ord c in
  if between 48 n 57 then Some (Z.of_nat n - 48)%Z else None.

Definition is_ascii (s : string) : bool :=
  str_forallb (fun c => (ord c <? 128)%nat) s.

(** [_PyUnicode_TransformDecimalAndSpaceToASCII]: blanks above U+007E become
    a space; the first other character above U+007E becomes a question mark
    and ends the buffer (no decimal digit lives in U+007F..U+00FF). *)
Fixpoint transform_to_ascii (s : string) : string :=
  match s with
  | EmptyString => EmptyString
  | String c s' =>
      if (ord c <? 127)%nat then String c (transform_to_ascii s')
      else if isspace c then String " " (transform_to_ascii s')
      else "?"
  end.

Fixpoint skip_c_spaces (s : string) : string :=
  match s with
  | EmptyString => EmptyString
  | String c s' => if is_c_space c then skip_c_spaces s' else s
  end.

(** The digit scan of [long_from_string_base]: digits with single
    underscores between them.  Returns the value, the number of digits and
    the unread rest, or [None] on a doubled or trailing underscore. *)
Fixpoint scan_digits (s : string) (prev_underscore : bool) (acc : Z) (digits : nat)
  : option (Z * nat * string) :=
  match s with
  | EmptyString => if prev_underscore then None else Some (acc, digits, s)
  | String c s' =>
      match digit_value c with
      | Some d => scan_digits s' false (10 * acc + d)%Z (S digits)
      | None =>
          if Ascii.eqb c "_" then
            if prev_underscore then None else scan_digits s' true acc digits
          else if prev_underscore then None else Some (acc, digits, s)
      end
  end.

Definition MAX_STR_DIGITS : nat := 4300.

Definition invalid_literal (s : string) : exn :=
  ValueError ("invalid literal for int() with base 10: " +:+ str_take 200 (repr s)).

Definition exceeds_limit (digits : nat) : exn :=
  ValueError ("Exceeds the limit (4300 digits) for integer string conversion: value has "
              +:+ pretty digits
              +:+ " digits; use sys.set_int_max_str_digits() to increase the limit").

(** [int(s)] for a [str] argument. *)
Definition py_int (s : string) : result Z :=
  let buffer := if is_ascii s then s else transform_to_ascii s in
  let after_blanks := skip_c_spaces buffer in
  let '(negative, body) :=
    match after_blanks with
    | String c rest =>
        if Ascii.eqb c "+" then (false, rest)
        else if Ascii.eqb c "-" then (true, rest)
        else (false, after_blanks)
    | EmptyString => (false, after_blanks)
    end in
  match body with
  | String c _ =>
      if Ascii.eqb c "_" then Raise (invalid_literal s)
      else
        match scan_digits body false 0%Z 0 with
        | None => Raise (invalid_literal s)
        | Some (value, digits, rest) =>
            if (digits =? 0)%nat then Raise (invalid_literal s)
            else
              match skip_c_spaces rest with
              | EmptyString =>
                  if (MAX_STR_DIGITS <? digits)%nat then Raise (exceeds_limit digits)
                  else Ok (if negative then (- value)%Z else value)
              | String t _ =>
                  (* an embedded NUL ends the C buffer: the literal passes
                     the scan and is rejected by the length check after it *)
                  if (ord t =? 0)%nat && (MAX_STR_DIGITS <? digits)%nat
                  then Raise (exceeds_limit digits)
                  else Raise (invalid_literal s)
              end
        end
  | EmptyString => Raise (invalid_literal s)
  end.

(** [a, b, c = row] *)
Definition unpack3 (row : list string) : result (string * string * string) :=
  match row with
  | [a; b; c] => Ok (a, b, c)
  | _ =>
      if (length row <? 3)%nat
      then Raise (ValueError ("not enough values to unpack (expected 3, got "
                              +:+ pretty (length row) +:+ ")"))
      else Raise (ValueError "too many values to unpack (expected 3)")
  end.

(** ** [csv.reader], default dialect

    The reader of [Modules/_csv.c] with delimiter comma, quote character
    the double quote, [doublequote] on, no escape character, not strict.
    The states reached through an escape character are left out. *)

Inductive ParserState : Type :=
| START_RECORD | START_FIELD | IN_FIELD | IN_QUOTED_FIELD
| QUOTE_IN_QUOTED_FIELD | EAT_CRNL.

Record Reader : Type := mkReader {
  state : ParserState;
  fields : list string;   (* fields saved for the record being read *)
  field : string          (* characters of the field being read *)
}.

Definition FIELD_LIMIT : Z := 131072.

Definition parse_reset : Reader := mkReader START_RECORD [] EmptyString.

Definition parse_save_field (r : Reader) (next : ParserState) : Reader :=
  mkReader next (fields r ++ [field r])%list EmptyString.

Definition parse_add_char (r : Reader) (next : ParserState) (c : ascii) : result Reader :=
  if (FIELD_LIMIT <=? Z.of_nat (String.length (field r)))%Z
  then Raise (CsvError "field larger than field limit (131072)")
  else Ok (mkReader next (fields r) (field r +:+ String c EmptyString)).

Definition is_newline (c : ascii) : bool := Ascii.eqb c LF || Ascii.eqb c CR.

Definition start_field (r : Reader) (c : option ascii) : result Reader :=
  match c with
  | None => Ok (parse_save_field r START_RECORD)
  | Some ch =>
      if is_newline ch then Ok (parse_save_field r EAT_CRNL)
      else if Ascii.eqb ch DQUOTE then Ok (mkReader IN_QUOTED_FIELD (fields r) (field r))
      else if Ascii.eqb ch "," then Ok (parse_save_field r START_FIELD)
      else parse_add_char r IN_FIELD ch
  end.

(** [parse_process_char]; [None] is the end-of-line mark fed after the last
    character of every line. *)
Definition parse_process_char (r : Reader) (c : option ascii) : result Reader :=
  match state r with
  | START_RECORD =>
      match c with
      | None => Ok r
      | Some ch =>
          if is_newline ch then Ok (mkReader EAT_CRNL (fields r) (field r))
          else start_field r c
      end
  | START_FIELD => start_field r c
  | IN_FIELD =>
      match c with
      | None => Ok (parse_save_field r START_RECORD)
      | Some ch =>
          if is_newline ch then Ok (parse_save_field r EAT_CRNL)
          else if Ascii.eqb ch "," then Ok (parse_save_field r START_FIELD)
          else parse_add_char r IN_FIELD ch
      end
  | IN_QUOTED_FIELD =>
      match c with
      | None => Ok r
      | Some ch =>
          if Ascii.eqb ch DQUOTE then Ok (mkReader QUOTE_IN_QUOTED_FIELD (fields r) (field r))
          else parse_add_char r IN_QUOTED_FIELD ch
      end
  | QUOTE_IN_QUOTED_FIELD =>
      match c with
      | None => Ok (parse_save_field r START_RECORD)
      | Some ch =>
          if Ascii.eqb ch DQUOTE then parse_add_char r IN_QUOTED_FIELD ch
          else if Ascii.eqb ch "," then Ok (parse_save_field r START_FIELD)
          else if is_newline ch then Ok (parse_save_field r EAT_CRNL)
          else parse_add_char r IN_FIELD ch
      end
  | EAT_CRNL =>
      match c with
      | None => Ok (mkReader START_RECORD (fields r) (field r))
      | Some ch =>
          if is_newline ch then Ok r
          else Raise (CsvError "new-line character seen in unquoted field - do you need to open the file with newline=''?")
      end
  end.

Local Open Scope result_scope.

Fixpoint feed_line (r : Reader) (line : string) : result Reader :=
  match line with
  | EmptyString => parse_process_char r None
  | String c line' =>
      let? r' := parse_process_char r (Some c) in feed_line r' line'
  end.

(** [list(csv.reader(lines))], started with reader [r]: a record is
    returned each time a line leaves the reader in [START_RECORD]; when the
    lines run out inside a quoted field the pending record is returned. *)
Fixpoint read_records (r : Reader) (lines : list string) : result (list (list string)) :=
  match lines with
  | [] =>
      if negb (String.length (field r) =? 0)%nat
         || match state r with IN_QUOTED_FIELD => true | _ => false end
      then Ok [(fields r ++ [field r])%list]
      else Ok []
  | line :: lines' =>
      let? r' := feed_line r line in
      match state r' with
      | START_RECORD =>
          let? rows := read_records parse_reset lines' in Ok (fields r' :: rows)
      | _ => read_records r' lines'
      end
  end.

Definition csv_reader (lines : list string) : result (list (list string)) :=
  read_records parse_reset lines.

(** ** Schema registry *)

Definition SKILLS : list string :=
  [ "overall"; "attack"; "defence"; "strength"; "hitpoints"; "ranged";
    "prayer"; "magic"; "cooking"; "woodcutting"; "fletching"; "fishing";
    "firemaking"; "crafting"; "smithing"; "mining"; "herblore"; "agility";
    "thieving"; "slayer"; "farming"; "runecraft"; "hunter"; "construction";
    "sailing" ].

Definition BOSSES : list string :=
  [ "abyssal_sire"; "alchemical_hydra"; "amoxliatl"; "araxxor"; "artio";
    "barrows_chests"; "bryophyta"; "callisto"; "calvarion"; "cerberus";
    "chambers_of_xeric"; "chambers_of_xeric_challenge_mode";
    "chaos_elemental"; "chaos_fanatic"; "commander_zilyana";
    "corporeal_beast"; "crazy_archaeologist"; "dagannoth_prime";
    "dagannoth_rex"; "dagannoth_supreme"; "deranged_archaeologist";
    "doom_of_mokhaiotl"; "duke_sucellus"; "general_graardor"; "giant_mole";
    "grotesque_guardians"; "hespori"; "kalphite_queen"; "king_black_dragon";
    "kraken"; "kree_arra"; "kril_tsutsaroth"; "lunar_chests"; "mimic"; "nex";
    "nightmare"; "phosanis_nightmare"; "obor"; "phantom_muspah"; "sarachnis";
    "scorpia"; "scurrius"; "skotizo"; "sol_heredit"; "spindel"; "tempoross";
    "gauntlet"; "corrupted_gauntlet"; "hueycoatl"; "leviathan";
    "royal_titans"; "whisperer"; "theatre_of_blood";
    "theatre_of_blood_hard_mode"; "thermonuclear_smoke_devil";
    "tombs_of_amascut"; "tombs_of_amascut_expert_mode"; "tzkal_zuk";
    "tztok_jad"; "vardorvis"; "venenatis"; "vetion"; "vorkath"; "wintertodt";
    "yama"; "zalcano"; "zulrah" ].

(** ** Decoded statistics

    The dictionary returned by [fetch_player_stats] holds one entry per
    decoded skill and, under the key [bosses], the dictionary of boss
    entries.  No skill is called [bosses], so the two kinds of entry are
    kept in two maps. *)

Record SkillEntry : Type := mkSkill { rank : Z; level : Z; xp : Z }.

Record BossEntry : Type := mkBoss { boss_rank : option Z; kc : option Z }.

Record PlayerStats : Type := mkStats {
  skills : gmap string SkillEntry;
  bosses : gmap string BossEntry
}.

(** [{"rank": None, "kc": None}] *)
Definition placeholder : BossEntry := mkBoss None None.

(** ** The decoder: lines 161-203 of [fetch_player_stats] *)

(** The skill loop over [zip(SKILLS, skill_rows)]. *)
Fixpoint decode_skills (pairs : list (string * list string))
    (stats : gmap string SkillEntry) : result (gmap string SkillEntry) :=
  match pairs with
  | [] => Ok stats
  | (skill, row) :: pairs' =>
      let? fields3 := unpack3 row in
      let '(r, lvl, x) := fields3 in
      let? r' := py_int r in
      let? lvl' := py_int lvl in
      let? x' := py_int x in
      decode_skills pairs' (<[skill := mkSkill r' lvl' x']> stats)
  end.

(** [try: v = int(s)  except Exception: v = None] *)
Definition try_int (s : string) : option Z :=
  match py_int s with
  | Ok v => Some v
  | Raise _ => None
  end.

(** The body of the boss loop: the entry stored for one row. *)
Definition decode_boss_row (row : list string) : BossEntry :=
  if (length row <? 2)%nat then placeholder
  else
    let rank_str := nth 0 row EmptyString in
    let kc_str := nth 1 row EmptyString in
    let rank0 := try_int rank_str in
    let kc0 := try_int kc_str in
    let rank1 :=
      match rank0 with
      | Some v => if (v <? 0)%Z then None else rank0
      | None => rank0
      end in
    let kc1 :=
      match kc0 with
      | Some v => if (v <? 0)%Z then Some 0%Z else kc0
      | None => kc0
      end in
    mkBoss rank1 kc1.

Definition decode_bosses (pairs : list (string * list string)) : gmap string BossEntry :=
  fold_left (fun boss_stats '(boss_name, row) =>
               <[boss_name := decode_boss_row row]> boss_stats) pairs ∅.

(** [l[-n:]]; with [n = 0] Python reads it as [l[0:]]. *)
Definition slice_from_end {A} (n : nat) (l : list A) : list A :=
  if (n =? 0)%nat then l else drop (length l - n) l.

(** [rows = list(csv.reader(text.strip().split("\n")))] *)
Definition parse_rows (text : string) : result (list (list string)) :=
  csv_reader (split LF (strip text)).

Definition decode_rows (rows : list (list string)) : result PlayerStats :=
  let skill_rows := take (length SKILLS) rows in
  let? skill_stats := decode_skills (zip SKILLS skill_rows) ∅ in
  let activity_rows := drop (length SKILLS) rows in
  let boss_count := length BOSSES in
  let boss_rows :=
    if (boss_count <=? length activity_rows)%nat
    then slice_from_end boss_count activity_rows else [] in
  let boss_stats := decode_bosses (zip BOSSES boss_rows) in
  Ok (mkStats skill_stats boss_stats).

Definition decode_stats (text : string) : result PlayerStats :=
  let? rows := parse_rows text in decode_rows rows.

(** ** The world: network, clock and dropped-player file *)

Record Response : Type := mkResponse { status_code : Z; text : string }.

(** What one call of [requests.get] does: it returns a response or raises
    a [RequestException] (timeout, connection error). *)
Inductive reply : Type :=
| Replies (resp : Response)
| Fails (msg : string).

Record World : Type := mkWorld {
  requested : list string;      (* players asked of the server, oldest first *)
  slept : list Z;               (* arguments of [time.sleep], oldest first *)
  dropped_file : option (list (list string))
                                (* dropped_players.csv: absent, or its records *)
}.

Definition M (A : Type) : Type := World -> result A * World.

Definition ret {A} (a : A) : M A := fun w => (Ok a, w).
Definition raise {A} (e : exn) : M A := fun w => (Raise e, w).
Definition bind {A B} (m : M A) (k : A -> M B) : M B :=
  fun w => match m w with
           | (Ok a, w') => k a w'
           | (Raise e, w') => (Raise e, w')
           end.
Definition lift {A} (r : result A) : M A := fun w => (r, w).

(** [try: body  except <class> as e: handler]; [catches] is the
    [isinstance] test of the [except] clause. *)
Definition try_except {A} (body : M A) (catches : exn -> bool) (handler : exn -> M A) : M A :=
  fun w => match body w with
           | (Ok a, w') => (Ok a, w')
           | (Raise e, w') => if catches e then handler e w' else (Raise e, w')
           end.

Declare Scope m_scope.
Delimit Scope m_scope with M.
Notation "x <- m ;; k" := (bind m (fun x => k))
  (at level 100, m at next level, right associativity) : m_scope.
Notation "m ;; k" := (bind m (fun _ => k))
  (at level 100, right associativity) : m_scope.

(** [time.sleep(seconds)] *)
Definition time_sleep (seconds : Z) : M unit :=
  fun w =>
    if (seconds <? 0)%Z then (Raise (ValueError "sleep length must be non-negative"), w)
    else (Ok tt, mkWorld (requested w) (slept w ++ [seconds])%list (dropped_file w)).

(** [range(a, b)] *)
Definition py_range (a b : Z) : list Z :=
  map (fun i => (a + Z.of_nat i)%Z) (seq 0 (Z.to_nat (b - a))).

Local Open Scope m_scope.

(** ** Dropped-player store *)

(** What the program reads of a [pandas.DataFrame]: [df.columns] and, for
    a column name [c], the values of [df[c].astype(str)] in row order.
    Both are what pandas made of the file, with the types and the missing
    values it inferred. *)
Record DataFrame : Type := mkFrame {
  columns : list string;
  astype_str : string -> list string
}.

Section DroppedPlayers.

(** pandas is no part of the repository.  [read_table] stands for what
    [pd.read_csv] does with a file that holds at least one record: the
    table it builds, or the exception it raises (records of unequal
    length, bytes it cannot decode, ...).  Nothing is assumed about it. *)
Variable read_table : list (list string) -> result DataFrame.

(** [pd.read_csv(path)] on the records of an existing file.  A file
    without any record has no header line, and pandas raises
    [EmptyDataError] before it builds a table. *)
Definition pd_read_csv (file : list (list string)) : result DataFrame :=
  match file with
  | [] => Raise (EmptyDataError "No columns to parse from file")
  | _ :: _ => read_table file
  end.

(** [load_dropped_players(path)], given what is stored at [path]. *)
Definition load_dropped_players (file : option (list (list string)))
  : result (gset string) :=
  match file with
  | None => Ok ∅
  | Some content =>
      let? df := pd_read_csv content in
      if negb (bool_decide ("player_name" ∈ columns df)) then Ok ∅
      else Ok (list_to_set (astype_str df "player_name"))
  end%result.

End DroppedPlayers.

(** [append_dropped_player(DROPPED_PLAYERS_PATH, player_name)]: a new file
    gets the header and the name, an existing one gets the name alone. *)
Definition append_dropped_player (player_name : string) : M unit :=
  fun w =>
    let file' :=
      match dropped_file w with
      | None => [["player_name"]; [player_name]]
      | Some content => (content ++ [[player_name]])%list
      end in
    (Ok tt, mkWorld (requested w) (slept w) (Some file')).

(** ** Panel rows *)

Inductive Cell : Type :=
| CStr (s : string)
| CInt (z : Z)
| CNone.

Definition opt_cell (v : option Z) : Cell :=
  match v with Some z => CInt z | None => CNone end.

(** [stats["bosses"].get(boss, {"kc": None, "rank": None})] *)
Definition boss_entry (stats : PlayerStats) (boss : string) : BossEntry :=
  default placeholder (bosses stats !! boss).

(** The skill columns of a row: [stats[skill]] raises [KeyError] for a
    skill the decoder did not store. *)
Fixpoint skill_columns (todo : list string) (stats : PlayerStats)
    (row : gmap string Cell) : result (gmap string Cell) :=
  match todo with
  | [] => Ok row
  | skill :: todo' =>
      match skills stats !! skill with
      | None => Raise (KeyError skill)
      | Some vals =>
          skill_columns todo' stats
            (<[skill +:+ "_rank" := CInt (rank vals)]>
               (<[skill +:+ "_xp" := CInt (xp vals)]>
                  (<[skill +:+ "_level" := CInt (level vals)]> row)))
      end
  end.

Definition boss_columns (todo : list string) (stats : PlayerStats)
    (row : gmap string Cell) : gmap string Cell :=
  fold_left (fun row boss =>
               let vals := boss_entry stats boss in
               <[boss +:+ "_rank" := opt_cell (boss_rank vals)]>
                 (<[boss +:+ "_kc" := opt_cell (kc vals)]> row)) todo row.

(** Lines 277-290 of [build_database]: the row of one decoded player. *)
Definition build_row (name today : string) (stats : PlayerStats)
  : result (gmap string Cell) :=
  let row := <["date" := CStr today]> (<["player_name" := CStr name]> ∅) in
  (let? row := skill_columns SKILLS stats row in
   Ok (boss_columns BOSSES stats row))%result.

(** ** Fetching and the batch loop *)

Section Pipeline.

(** The remote server as seen by this run: the reply to the [n]-th call
    of [requests.get] of the run (counted from 0) when it asks for
    [player_name]. *)
Variable net : nat -> string -> reply.

(** [requests.get(url, timeout=10)]; the URL is a function of the
    player name. *)
Definition requests_get (player_name : string) : M Response :=
  fun w =>
    let w' := mkWorld (requested w ++ [player_name])%list (slept w) (dropped_file w) in
    match net (length (requested w)) player_name with
    | Replies resp => (Ok resp, w')
    | Fails msg => (Raise (RequestException msg), w')
    end.

(** [resp.raise_for_status()] *)
Definition raise_for_status (resp : Response) : M unit :=
  if ((400 <=? status_code resp) && (status_code resp <? 600))%Z
  then raise (HTTPError (status_code resp))
  else ret tt.

Definition not_on_hiscores (player_name : string) : exn :=
  ValueError ("Player '" +:+ player_name +:+ "' not on hiscores.").

(** The [try] block of one attempt. *)
Definition attempt_request (player_name : string) : M string :=
  resp <- requests_get player_name ;;
  if (status_code resp =? 404)%Z then raise (not_on_hiscores player_name)
  else
    raise_for_status resp ;;
    ret (text resp).

(** The [for attempt in range(1, max_retries + 1)] statement with its
    [else] clause; [attempts] are the values of [attempt] still to run. *)
Fixpoint retry_loop (player_name : string) (max_retries base_delay : Z)
    (attempts : list Z) (last_exc : option exn) : M string :=
  match attempts with
  | [] =>
      raise (default
               (RuntimeError ("Unexpected error fetching stats for " +:+ player_name))
               last_exc)
  | attempt :: attempts' =>
      try_except (attempt_request player_name) is_RequestException
        (fun e =>
           if (attempt =? max_retries)%Z then raise e
           else
             time_sleep (base_delay * attempt) ;;
             retry_loop player_name max_retries base_delay attempts' (Some e))
  end.

(** Lines 119-159: the text of the first successful response. *)
Definition fetch_text (player_name : string) (max_retries base_delay : Z) : M string :=
  retry_loop player_name max_retries base_delay (py_range 1 (max_retries + 1)) None.

Definition fetch_player_stats (player_name : string) (max_retries base_delay : Z)
  : M PlayerStats :=
  text <- fetch_text player_name max_retries base_delay ;;
  lift (decode_stats text).

(** The [for name in player_names] loop of [build_database];
    [fetch_player_stats(name)] runs with its defaults.  Every exception
    modelled derives from [Exception], so the second clause catches what
    the first lets through.  The row is built outside the [try]. *)
Fixpoint build_database_loop (today : string) (player_names : list string)
    (rows : list (gmap string Cell)) : M (list (gmap string Cell)) :=
  match player_names with
  | [] => ret rows
  | name :: player_names' =>
      fun w =>
        match fetch_player_stats name 5 3 w with
        | (Raise e, w') =>
            match as_ValueError e with
            | Some msg =>
                if contains "not on hiscores" msg
                then (append_dropped_player name ;;
                      build_database_loop today player_names' rows) w'
                else build_database_loop today player_names' rows w'
            | None => build_database_loop today player_names' rows w'
            end
        | (Ok stats, w') =>
            match build_row name today stats with
            | Raise e => (Raise e, w')
            | Ok row => build_database_loop today player_names' (rows ++ [row])%list w'
            end
        end
  end.

(** [build_database(player_names)]; [today] is [date.today().isoformat()]. *)
Definition build_database (today : string) (player_names : list string)
  : M (list (gmap string Cell)) :=
  build_database_loop today player_names [].

End Pipeline.

(** * Vocabulary of the statements *)

(** ** Replies and worlds *)

(** How one reply is classified by the [try] block: a transient failure
    (with the exception it raises), a success (with the payload), or the
    permanent absence of the player. *)
Definition transient (r : reply) : option exn :=
  match r with
  | Fails msg => Some (RequestException msg)
  | Replies resp =>
      if (status_code resp =? 404)%Z then None
      else if ((400 <=? status_code resp) && (status_code resp <? 600))%Z
           then Some (HTTPError (status_code resp))
           else None
  end.

Definition successful (r : reply) : option string :=
  match r with
  | Fails _ => None
  | Replies resp =>
      if ((400 <=? status_code resp) && (status_code resp <? 600))%Z
      then None else Some (text resp)
  end.

Definition not_found (r : reply) : bool :=
  match r with
  | Fails _ => false
  | Replies resp => (status_code resp =? 404)%Z
  end.

(** The reply to the [i]-th attempt (from 1) of a fetch begun in [w]. *)
Definition attempt_reply (net : nat -> string -> reply) (w : World)
    (player_name : string) (i : nat) : reply :=
  net (length (requested w) + (i - 1))%nat player_name.

(** The delays slept after [n] failed attempts: [base_delay * 1], ...,
    [base_delay * n]. *)
Definition backoff_delays (base_delay : Z) (n : nat) : list Z :=
  map (fun i => (base_delay * Z.of_nat i)%Z) (seq 1 n).

Definition record_request (player_name : string) (w : World) : World :=
  mkWorld (requested w ++ [player_name])%list (slept w) (dropped_file w).

(** The world after a fetch of [player_name] that made [attempts] requests
    and slept after [failures] of them. *)
Definition after_attempts (w : World) (player_name : string) (base_delay : Z)
    (attempts failures : nat) : World :=
  mkWorld (requested w ++ repeat player_name attempts)%list
          (slept w ++ backoff_delays base_delay failures)%list
          (dropped_file w).

(** The world after [append_dropped_player(name)]. *)
Definition mark_dropped (player_name : string) (w : World) : World :=
  (append_dropped_player player_name w).2.

(** ** Rows and statistics *)

Definition normal_rank (v : option Z) : option Z :=
  match v with
  | Some r => if (r <? 0)%Z then None else Some r
  | None => None
  end.

Definition normal_kc (v : option Z) : option Z :=
  match v with
  | Some k => if (k <? 0)%Z then Some 0%Z else Some k
  | None => None
  end.

Definition is_ok {A} (r : result A) : bool :=
  match r with Ok _ => true | Raise _ => false end.

(** A skill row the decoder accepts: exactly three fields, all integers. *)
Definition skill_row_ok (row : list string) : bool :=
  match row with
  | [a; b; c] => is_ok (py_int a) && is_ok (py_int b) && is_ok (py_int c)
  | _ => false
  end.

(** A well-formed skill block: a row for every skill, each acceptable. *)
Definition skill_block_ok (rows : list (list string)) : bool :=
  (length SKILLS <=? length rows)%nat
  && forallb skill_row_ok (take (length SKILLS) rows).

(** Statistics with an entry for every skill of the registry. *)
Definition complete (stats : PlayerStats) : Prop :=
  ∀ skill, skill ∈ SKILLS → is_Some (skills stats !! skill).


(** The cells of the built rows under the given column names. *)
Definition row_cells (keys : list string) (rows : result (list (gmap string Cell)))
  : result (list (list (option Cell))) :=
  match rows with
  | Ok rows => Ok (map (fun row : gmap string Cell => map (fun key => row !! key) keys) rows)
  | Raise e => Raise e
  end.

(** ** Sample payloads and servers *)

(** [chr(10).join(lines)] *)
Fixpoint join_lines (lines : list string) : string :=
  match lines with
  | [] => EmptyString
  | [line] => line
  | line :: lines' => line +:+ String LF (join_lines lines')
  end.

(** One skill row only. *)
Definition short_payload : string := "1,2,3".

(** All skill rows, then four activity rows. *)
Definition few_activities_payload : string :=
  join_lines (repeat "100,99,13034431" 25 ++ repeat "-1,-1" 4).

(** All skill rows, three unknown leading activity rows, then one row per
    boss; the last boss has rank 7 and an unreadable kill count. *)
Definition full_payload : string :=
  join_lines (repeat "100,99,13034431" 25 ++ repeat "5,6" 3
              ++ ["41,250"] ++ repeat "-1,-1" 65 ++ ["7,x"]).

(** A payload whose first skill field is not a number, with the phrase
    [build_database] looks for inside that field. *)
Definition misleading_payload : string := "not on hiscores,1,1".


Definition rows_of (payload : string) : list (list string) :=
  match parse_rows payload with
  | Ok rows => rows
  | Raise _ => []
  end.

Definition few_activities_rows := Eval vm_compute in rows_of few_activities_payload.

Definition full_rows := Eval vm_compute in rows_of full_payload.

Definition empty_world : World := mkWorld [] [] None.

(** A server that times out twice for every player but [GhostName], whom
    it does not know, [Shorty], whose record it cuts short, and [Tricky],
    whose record it garbles. *)
Definition sample_net (n : nat) (player_name : string) : reply :=
  if String.eqb player_name "GhostName" then Replies (mkResponse 404 "not found")
  else if String.eqb player_name "Shorty" then Replies (mkResponse 200 short_payload)
  else if String.eqb player_name "Tricky" then Replies (mkResponse 200 misleading_payload)
  else if (n <? 2)%nat then Fails "timed out"
  else Replies (mkResponse 200 full_payload).

(** A server that never answers. *)
Definition dead_net (n : nat) (player_name : string) : reply := Fails "timed out".


(** * Vocabulary of the further properties *)

(** ** Panel rows *)

(** The column names [build_database] assigns for one skill and for one
    boss, in the order of assignment. *)
Definition skill_column_names (skill : string) : list string :=
  [skill +:+ "_level"; skill +:+ "_xp"; skill +:+ "_rank"].

Definition boss_column_names (boss : string) : list string :=
  [boss +:+ "_kc"; boss +:+ "_rank"].

(** All column names of a panel row, in the order of assignment. *)
Definition row_columns : list string :=
  (["player_name"; "date"]
   ++ (SKILLS ≫= skill_column_names) ++ (BOSSES ≫= boss_column_names))%list.

(** The assignments [row[key] = value] made for one skill and one boss. *)
Definition skill_items (stats : PlayerStats) (skill : string) : list (string * Cell) :=
  match skills stats !! skill with
  | Some vals =>
      [(skill +:+ "_level", CInt (level vals)); (skill +:+ "_xp", CInt (xp vals));
       (skill +:+ "_rank", CInt (rank vals))]
  | None => []
  end.

Definition boss_items (stats : PlayerStats) (boss : string) : list (string * Cell) :=
  [(boss +:+ "_kc", opt_cell (kc (boss_entry stats boss)));
   (boss +:+ "_rank", opt_cell (boss_rank (boss_entry stats boss)))].

(** All assignments of [build_database] for one player, in order. *)
Definition row_items (name today : string) (stats : PlayerStats) : list (string * Cell) :=
  ([("player_name", CStr name); ("date", CStr today)]
   ++ (SKILLS ≫= skill_items stats) ++ (BOSSES ≫= boss_items stats))%list.

(** A run of assignments on a row. *)
Definition assign (row : gmap string Cell) (items : list (string * Cell))
  : gmap string Cell :=
  fold_left (fun row '(key, value) => <[key := value]> row) items row.

(** ** Exceptions *)

(** [isinstance(e, csv.Error)] *)
Definition is_csv_error (e : exn) : Prop := ∃ msg, e = CsvError msg.

(** ** Batches *)

(** The requests of a batch in which the [i]-th candidate was asked
    [counts !! i] times. *)
Definition requests_of (player_names : list string) (counts : list nat) : list string :=
  concat (zip_with (fun name n => repeat name n) player_names counts).

(** The sleeps of a batch: after [n] requests for a candidate, the
    back-off delays of its first [n - 1] attempts. *)
Definition sleeps_of (counts : list nat) : list Z :=
  concat (map (fun n => backoff_delays 3 (n - 1)) counts).

(** The dropped-player file after the names [marked] were appended one by
    one. *)
Definition dropped_after (file : option (list (list string))) (marked : list string)
  : option (list (list string)) :=
  match marked with
  | [] => file
  | _ => Some (default [["player_name"]] file ++ map (fun name => [name]) marked)%list
  end.

(** Lines 308-312 of the script body: the listed players not in the
    loaded dropped set are tracked, and their rows are built. *)
Definition track_and_build (net : nat -> string -> reply) (today : string)
    (all_player_names : list string) (dropped : gset string)
  : M (list (gmap string Cell)) :=
  let player_names := filter (fun n => n ∉ dropped) all_player_names in
  build_database net today player_names.

(** ** More sample servers *)

(** A server that times out twice and then reports the player as absent. *)
Definition late_404_net (n : nat) (player_name : string) : reply :=
  if (n <? 2)%nat then Fails "timed out" else Replies (mkResponse 404 "not found").

(** A server that knows every player but [GhostName] and always answers. *)
Definition steady_net (n : nat) (player_name : string) : reply :=
  if String.eqb player_name "GhostName" then Replies (mkResponse 404 "not found")
  else Replies (mkResponse 200 full_payload).


(** * Properties *)

(** ** Strings *)

Lemma contains_append (needle before after : string) :
  contains needle after = true → contains needle (before +:+ after) = true.
Proof.
  intros H. induction before as [|c before IH]; simpl; [exact H|].
  rewrite IH. apply orb_true_r.
Qed.

Lemma contains_prefix (needle after : string) :
  contains needle (needle +:+ after) = true.
Proof.
  assert (Hp : ∀ n h, String.prefix n (n +:+ h) = true).
  { induction n as [|c n IH]; intros h; simpl; [by destruct h|].
    destruct (Ascii.ascii_dec c c); [apply IH | done]. }
  destruct needle; simpl; [by destruct after|].
  destruct (Ascii.ascii_dec a a); [|done]. by rewrite Hp.
Qed.

Lemma not_on_hiscores_message (player_name : string) :
  ∃ msg, as_ValueError (not_on_hiscores player_name) = Some msg
         ∧ contains "not on hiscores" msg = true.
Proof.
  eexists; split; [reflexivity|].
  apply contains_append. apply contains_append.
  apply (contains_prefix "not on hiscores" ".").
Qed.

(** ** The library functions on small inputs *)

Example strip_blanks :
  strip (String TAB " 41,250 " +:+ String CR (String LF EmptyString)) = "41,250".
Proof. reflexivity. Qed.

Example split_keeps_empty_pieces :
  split LF ("a" +:+ String LF (String LF "b")) = ["a"; EmptyString; "b"].
Proof. reflexivity. Qed.

Example csv_quoted_field :
  csv_reader ["1," +:+ String DQUOTE "2,3" +:+ String DQUOTE ",4"]
  = Ok [["1"; "2,3"; "4"]].
Proof. reflexivity. Qed.

Example csv_blank_line : csv_reader ["1,2"; EmptyString; "3"] = Ok [["1"; "2"]; []; ["3"]].
Proof. reflexivity. Qed.

Example csv_carriage_return :
  csv_reader ["1,2" +:+ String CR EmptyString; "3,4"] = Ok [["1"; "2"]; ["3"; "4"]].
Proof. reflexivity. Qed.

Example py_int_blanks_and_sign : py_int " -12 " = Ok (-12)%Z.
Proof. reflexivity. Qed.

Example py_int_underscores : py_int "1_000" = Ok 1000%Z.
Proof. reflexivity. Qed.

Example py_int_rejects_fraction :
  py_int "4.5" = Raise (ValueError "invalid literal for int() with base 10: '4.5'").
Proof. reflexivity. Qed.

Example empty_payload_is_rejected :
  decode_stats EmptyString
  = Raise (ValueError "not enough values to unpack (expected 3, got 0)").
Proof. reflexivity. Qed.

(** ** The schema registry *)

Lemma SKILLS_length : length SKILLS = 25%nat.
Proof. reflexivity. Qed.

Lemma BOSSES_length : length BOSSES = 67%nat.
Proof. reflexivity. Qed.

Lemma BOSSES_NoDup : NoDup BOSSES.
Proof. apply (bool_decide_unpack _). vm_compute. exact I. Qed.

Lemma SKILLS_NoDup : NoDup SKILLS.
Proof. apply (bool_decide_unpack _). vm_compute. exact I. Qed.

(** The key [bosses] of the statistics dictionary is not a skill name. *)
Lemma bosses_key_is_no_skill : "bosses" ∉ SKILLS.
Proof. apply (bool_decide_unpack _). vm_compute. exact I. Qed.

(** ** [int] *)

(** Whatever [int] raises on a string is a [ValueError]. *)
Lemma py_int_raises_ValueError (s : string) (e : exn) :
  py_int s = Raise e → ∃ msg, e = ValueError msg.
Proof.
  unfold py_int, invalid_literal, exceeds_limit. intros H.
  repeat case_match; simplify_eq; eauto.
Qed.

Lemma try_int_Ok s v : py_int s = Ok v → try_int s = Some v.
Proof. unfold try_int. by intros ->. Qed.

Lemma try_int_Raise s e : py_int s = Raise e → try_int s = None.
Proof. unfold try_int. by intros ->. Qed.

(** ** Boss rows *)

Lemma decode_boss_row_fields (a b : string) (rest : list string) :
  decode_boss_row (a :: b :: rest)
  = mkBoss (normal_rank (try_int a)) (normal_kc (try_int b)).
Proof.
  unfold decode_boss_row. simpl.
  destruct (try_int a) as [r|], (try_int b) as [k|]; simpl; repeat case_match; reflexivity.
Qed.

Lemma decode_boss_row_short (row : list string) :
  (length row < 2)%nat → decode_boss_row row = placeholder.
Proof.
  intros H. unfold decode_boss_row.
  destruct (Nat.ltb_spec (length row) 2); [done | lia].
Qed.

(** C6. A boss row with at least two fields: a negative parsed rank is
    stored as [None], a negative parsed kill count as [0], a stored kill
    count is never negative, a field that does not parse is stored as
    [None], and each stored field depends on its own text alone. *)
Theorem C6_boss_row_sentinels (a b : string) (rest : list string) :
  let entry := decode_boss_row (a :: b :: rest) in
  (∀ r, py_int a = Ok r → (r < 0)%Z → boss_rank entry = None)
  ∧ (∀ r, py_int a = Ok r → (0 ≤ r)%Z → boss_rank entry = Some r)
  ∧ (∀ k, py_int b = Ok k → (k < 0)%Z → kc entry = Some 0%Z)
  ∧ (∀ k, py_int b = Ok k → (0 ≤ k)%Z → kc entry = Some k)
  ∧ (∀ k, kc entry = Some k → (0 ≤ k)%Z)
  ∧ (∀ e, py_int a = Raise e → boss_rank entry = None)
  ∧ (∀ e, py_int b = Raise e → kc entry = None)
  ∧ (∀ a' rest', kc (decode_boss_row (a' :: b :: rest')) = kc entry)
  ∧ (∀ b' rest', boss_rank (decode_boss_row (a :: b' :: rest')) = boss_rank entry).
Proof.
  intros entry. subst entry. rewrite decode_boss_row_fields. cbn [boss_rank kc].
  repeat split.
  - intros r Hr Hneg. rewrite (try_int_Ok _ _ Hr). simpl.
    destruct (Z.ltb_spec r 0); [done | lia].
  - intros r Hr Hpos. rewrite (try_int_Ok _ _ Hr). simpl.
    destruct (Z.ltb_spec r 0); [lia | done].
  - intros k Hk Hneg. rewrite (try_int_Ok _ _ Hk). simpl.
    destruct (Z.ltb_spec k 0); [done | lia].
  - intros k Hk Hpos. rewrite (try_int_Ok _ _ Hk). simpl.
    destruct (Z.ltb_spec k 0); [lia | done].
  - intros k. destruct (try_int b) as [v|]; simpl; [|done].
    destruct (Z.ltb_spec v 0); intros [= <-]; lia.
  - intros e He. by rewrite (try_int_Raise _ _ He).
  - intros e He. by rewrite (try_int_Raise _ _ He).
  - intros a' rest'. by rewrite decode_boss_row_fields.
  - intros b' rest'. by rewrite decode_boss_row_fields.
Qed.

Lemma C6_boss_row_sentinels_witness :
  boss_rank (decode_boss_row ["-1"; "-1"]) = None
  ∧ kc (decode_boss_row ["-1"; "-1"]) = Some 0%Z
  ∧ boss_rank (decode_boss_row ["x"; "12"; "9"]) = None
  ∧ kc (decode_boss_row ["x"; "12"; "9"]) = Some 12%Z.
Proof.
  split; [|split; [|split]].
  - apply (proj1 (C6_boss_row_sentinels "-1" "-1" []) (-1)%Z); [reflexivity | lia].
  - apply (proj1 (proj2 (proj2 (C6_boss_row_sentinels "-1" "-1" []))) (-1)%Z);
      [reflexivity | lia].
  - apply (proj1 (proj2 (proj2 (proj2 (proj2 (proj2 (C6_boss_row_sentinels "x" "12" ["9"]))))))
             (ValueError "invalid literal for int() with base 10: 'x'")).
    reflexivity.
  - apply (proj1 (proj2 (proj2 (proj2 (C6_boss_row_sentinels "x" "12" ["9"])))) 12%Z);
      [reflexivity | lia].
Defined.

(** ** The boss loop *)

Lemma decode_bosses_from_miss pairs (m : gmap string BossEntry) boss :
  boss ∉ pairs.*1 →
  fold_left (fun boss_stats '(boss_name, row) =>
               <[boss_name := decode_boss_row row]> boss_stats) pairs m !! boss
  = m !! boss.
Proof.
  revert m. induction pairs as [|[name row] pairs IH]; intros m Hnot; [done|].
  simpl in Hnot. apply not_elem_of_cons in Hnot as [Hne Hnot].
  simpl. rewrite IH by done. by apply lookup_insert_ne.
Qed.

Lemma decode_bosses_from_lookup pairs (m : gmap string BossEntry) i boss row :
  NoDup pairs.*1 → pairs !! i = Some (boss, row) →
  fold_left (fun boss_stats '(boss_name, row) =>
               <[boss_name := decode_boss_row row]> boss_stats) pairs m !! boss
  = Some (decode_boss_row row).
Proof.
  revert m i. induction pairs as [|[name r] pairs IH]; intros m i Hnd Hi; [done|].
  simpl in Hnd. apply NoDup_cons in Hnd as [Hfresh Hnd].
  destruct i as [|i]; simpl in *.
  - injection Hi as -> ->.
    rewrite decode_bosses_from_miss; [|done]. apply lookup_insert_eq.
  - by apply (IH _ i).
Qed.

Lemma decode_bosses_lookup pairs i boss row :
  NoDup pairs.*1 → pairs !! i = Some (boss, row) →
  decode_bosses pairs !! boss = Some (decode_boss_row row).
Proof. apply decode_bosses_from_lookup. Qed.

Lemma decode_bosses_nil : decode_bosses [] = ∅.
Proof. reflexivity. Qed.

Lemma zip_nil_r {A B} (l : list A) : zip l (@nil B) = [].
Proof. by destruct l. Qed.

(** ** The skill loop *)

Lemma decode_skills_accepts pairs (m : gmap string SkillEntry) :
  Forall (fun p => skill_row_ok p.2 = true) pairs →
  ∃ m', decode_skills pairs m = Ok m'
        ∧ ∀ skill, (skill ∈ pairs.*1 ∨ is_Some (m !! skill)) → is_Some (m' !! skill).
Proof.
  revert m. induction pairs as [|[skill row] pairs IH]; intros m Hall.
  - exists m. split; [done|]. intros s [Hs|Hs]; [by apply elem_of_nil in Hs | done].
  - apply Forall_cons in Hall as [Hrow Hall]. simpl in Hrow.
    destruct row as [|a [|b [|c [|? ?]]]]; try discriminate.
    apply andb_prop in Hrow as [Hab Hc]. apply andb_prop in Hab as [Ha Hb].
    simpl. destruct (py_int a) as [ra|]; [|done].
    destruct (py_int b) as [rb|]; [|done].
    destruct (py_int c) as [rc|]; [|done]. simpl.
    destruct (IH (<[skill := mkSkill ra rb rc]> m) Hall) as (m' & Hm' & Hdom).
    exists m'. split; [done|]. intros s Hs. apply Hdom.
    destruct (decide (s = skill)) as [->|Hne].
    + right. rewrite lookup_insert_eq. by eexists.
    + destruct Hs as [Hin|Hsome].
      * left. simpl in Hin. by apply elem_of_cons in Hin as [?|?].
      * right. by rewrite lookup_insert_ne.
Qed.

Lemma skill_block_decodes rows :
  skill_block_ok rows = true →
  ∃ skill_stats, decode_skills (zip SKILLS (take (length SKILLS) rows)) ∅ = Ok skill_stats
                 ∧ ∀ skill, skill ∈ SKILLS → is_Some (skill_stats !! skill).
Proof.
  unfold skill_block_ok. intros H. apply andb_prop in H as [Hlen Hrows].
  apply Nat.leb_le in Hlen.
  destruct (decode_skills_accepts (zip SKILLS (take (length SKILLS) rows)) ∅)
    as (m' & Hm' & Hdom).
  { apply Forall_forall. intros [skill row] Hin. simpl.
    apply elem_of_zip_r in Hin.
    rewrite forallb_forall in Hrows. apply Hrows. by apply list_elem_of_In. }
  exists m'. split; [done|]. intros skill Hs. apply Hdom. left.
  rewrite fst_zip; [done|]. rewrite length_take. lia.
Qed.

(** ** Panel rows *)

Lemma skill_columns_total todo stats (row : gmap string Cell) :
  (∀ skill, skill ∈ todo → is_Some (skills stats !! skill)) →
  ∃ row', skill_columns todo stats row = Ok row'.
Proof.
  revert row. induction todo as [|skill todo IH]; intros row Hall; simpl.
  - by eexists.
  - destruct (Hall skill) as [vals ->]; [apply list_elem_of_here|].
    apply IH. intros s Hs. apply Hall. by apply list_elem_of_further.
Qed.

Lemma skill_columns_missing todo stats (row : gmap string Cell) skill before after :
  todo = (before ++ skill :: after)%list →
  (∀ s, s ∈ before → is_Some (skills stats !! s)) →
  skills stats !! skill = None →
  skill_columns todo stats row = Raise (KeyError skill).
Proof.
  intros -> Hbefore Hmiss. revert row.
  induction before as [|s before IH]; intros row; simpl.
  - by rewrite Hmiss.
  - destruct (Hbefore s) as [vals ->]; [apply list_elem_of_here|].
    apply IH. intros s' Hs'. apply Hbefore. by apply list_elem_of_further.
Qed.



(** ** The decoder on whole payloads *)

Lemma decode_stats_rows text rows :
  parse_rows text = Ok rows → decode_stats text = decode_rows rows.
Proof. unfold decode_stats. by intros ->. Qed.

Lemma slice_from_end_bosses {A} (l : list A) :
  slice_from_end (length BOSSES) l = drop (length l - length BOSSES) l.
Proof. reflexivity. Qed.



(** C7. With at least as many activity rows as bosses, the boss block is
    the last [length BOSSES] activity rows: the [i]-th boss of the registry
    is decoded from the activity row [extra + i], where [extra] counts the
    leading activity rows, none of which is read. *)
Theorem C7_boss_block_right_aligned (text : string) (rows : list (list string)) :
  parse_rows text = Ok rows →
  skill_block_ok rows = true →
  (length BOSSES ≤ length (drop (length SKILLS) rows))%nat →
  let activity_rows := drop (length SKILLS) rows in
  let extra := (length activity_rows - length BOSSES)%nat in
  ∃ stats,
    decode_stats text = Ok stats
    ∧ bosses stats = decode_bosses (zip BOSSES (drop extra activity_rows))
    ∧ length (drop extra activity_rows) = length BOSSES
    ∧ ∀ i boss, BOSSES !! i = Some boss →
        ∃ row, activity_rows !! (extra + i)%nat = Some row
               ∧ bosses stats !! boss = Some (decode_boss_row row).
Proof.
  intros Hparse Hblock Hlen activity_rows extra.
  destruct (skill_block_decodes rows Hblock) as (skill_stats & Hskills & Hall).
  exists (mkStats skill_stats (decode_bosses (zip BOSSES (drop extra activity_rows)))).
  assert (Hblock_len : length (drop extra activity_rows) = length BOSSES).
  { rewrite length_drop. subst extra activity_rows. lia. }
  split; [|split; [done|split; [done|]]].
  - rewrite (decode_stats_rows _ _ Hparse). unfold decode_rows.
    rewrite Hskills. cbn [rbind]. fold activity_rows.
    destruct (Nat.leb_spec (length BOSSES) (length activity_rows)) as [_|Hlt];
      [|subst activity_rows; lia].
    by rewrite slice_from_end_bosses.
  - intros i boss Hi. cbn [bosses].
    assert (Hlt : (i < length (drop extra activity_rows))%nat).
    { rewrite Hblock_len. by apply lookup_lt_Some in Hi. }
    apply lookup_lt_is_Some in Hlt as [row Hrow].
    exists row. split; [by rewrite <- lookup_drop|].
    apply (decode_bosses_lookup (zip BOSSES (drop extra activity_rows)) i).
    + rewrite fst_zip; [apply BOSSES_NoDup | lia].
    + apply lookup_zip_with_Some. eauto.
Qed.

(** ** The retrying fetch *)

Lemma repeat_snoc {A} (x : A) (n : nat) :
  (repeat x n ++ [x])%list = repeat x (S n).
Proof. induction n as [|n IH]; simpl; [done | by rewrite IH]. Qed.

Section Retrier.

Variable net : nat -> string -> reply.

Lemma attempt_transient player_name w e :
  transient (net (length (requested w)) player_name) = Some e →
  attempt_request net player_name w = (Raise e, record_request player_name w)
  ∧ is_RequestException e = true.
Proof.
  unfold transient, attempt_request, bind, requests_get, raise_for_status.
  destruct (net _ _) as [resp|msg]; [|by intros [= <-]].
  destruct (status_code resp =? 404)%Z; [done|].
  destruct ((400 <=? status_code resp) && (status_code resp <? 600))%Z;
    [|done].
  by intros [= <-].
Qed.

Lemma attempt_successful player_name w payload :
  successful (net (length (requested w)) player_name) = Some payload →
  attempt_request net player_name w = (Ok payload, record_request player_name w).
Proof.
  unfold successful, attempt_request, bind, requests_get, raise_for_status.
  destruct (net _ _) as [resp|msg]; [|done].
  destruct (Z.eqb_spec (status_code resp) 404) as [E|_].
  { rewrite E. done. }
  destruct ((400 <=? status_code resp) && (status_code resp <? 600))%Z;
    [done|].
  by intros [= <-].
Qed.

Lemma attempt_not_found player_name w :
  not_found (net (length (requested w)) player_name) = true →
  attempt_request net player_name w
  = (Raise (not_on_hiscores player_name), record_request player_name w).
Proof.
  unfold not_found, attempt_request, bind, requests_get.
  destruct (net _ _) as [resp|msg]; [|done].
  by intros ->.
Qed.

Lemma py_range_attempts (max_retries : Z) :
  py_range 1 (max_retries + 1) = map Z.of_nat (seq 1 (Z.to_nat max_retries)).
Proof.
  unfold py_range. replace (max_retries + 1 - 1)%Z with max_retries by lia.
  rewrite <- fmap_S_seq, <- list_fmap_compose.
  apply map_ext. intros i. simpl. lia.
Qed.

(** A run of failed attempts, none of them the last allowed one: each is
    followed by its sleep, and the loop goes on with the next attempt. *)
Lemma retry_loop_failures player_name max_retries base_delay :
  (0 ≤ base_delay)%Z →
  ∀ (j s : nat) (rest : list Z) (last_exc : option exn) (w : World),
    (∀ i, (s ≤ i < s + j)%nat →
          is_Some (transient (net (length (requested w) + (i - s))%nat player_name))) →
    (∀ i, (s ≤ i < s + j)%nat → Z.of_nat i ≠ max_retries) →
    ∃ last_exc',
      retry_loop net player_name max_retries base_delay
        (map Z.of_nat (seq s j) ++ rest) last_exc w
      = retry_loop net player_name max_retries base_delay rest last_exc'
          (mkWorld (requested w ++ repeat player_name j)%list
                   (slept w ++ map (fun i => (base_delay * Z.of_nat i)%Z) (seq s j))%list
                   (dropped_file w)).
Proof.
  intros Hdelay. induction j as [|j IH]; intros s rest last_exc w Hfail Hnot_last.
  - exists last_exc. simpl. rewrite !app_nil_r. by destruct w.
  - destruct (Hfail s) as [e He]; [lia|].
    replace (s - s)%nat with 0%nat in He by lia. rewrite Nat.add_0_r in He.
    destruct (attempt_transient player_name w e He) as [Hatt Hreq].
    assert (Hne : (Z.of_nat s =? max_retries)%Z = false).
    { apply Z.eqb_neq. apply Hnot_last. lia. }
    assert (Hsleep : (base_delay * Z.of_nat s <? 0)%Z = false).
    { apply Z.ltb_ge. apply Z.mul_nonneg_nonneg; lia. }
    destruct (IH (S s) rest (Some e)
                (mkWorld (requested w ++ [player_name])%list
                         (slept w ++ [(base_delay * Z.of_nat s)%Z])%list
                         (dropped_file w))) as [last_exc' Hrest].
    { intros i Hi. cbn [requested]. rewrite length_app. simpl.
      replace (length (requested w) + 1 + (i - S s))%nat
        with (length (requested w) + (i - s))%nat by lia.
      apply Hfail. lia. }
    { intros i Hi. apply Hnot_last. lia. }
    exists last_exc'.
    change (map Z.of_nat (seq s (S j)) ++ rest)%list
      with (Z.of_nat s :: (map Z.of_nat (seq (S s) j) ++ rest))%list.
    cbn [retry_loop]. unfold try_except at 1. rewrite Hatt, Hreq, Hne.
    unfold bind at 1, time_sleep, record_request. cbn [requested slept dropped_file].
    rewrite Hsleep. rewrite Hrest. cbn [requested slept dropped_file].
    f_equal. f_equal.
    + rewrite <- app_assoc. reflexivity.
    + rewrite <- app_assoc. reflexivity.
Qed.

(** The transport part of C1: failures on attempts [1..k-1], success on
    attempt [k]. *)
Lemma fetch_text_success player_name max_retries base_delay (k : nat) payload w :
  (0 ≤ base_delay)%Z → (1 ≤ k)%nat → (Z.of_nat k ≤ max_retries)%Z →
  (∀ i, (1 ≤ i < k)%nat → is_Some (transient (attempt_reply net w player_name i))) →
  successful (attempt_reply net w player_name k) = Some payload →
  fetch_text net player_name max_retries base_delay w
  = (Ok payload, after_attempts w player_name base_delay k (k - 1)).
Proof.
  intros Hdelay Hk Hmax Hfail Hsucc.
  unfold fetch_text. rewrite py_range_attempts.
  replace (Z.to_nat max_retries) with ((k - 1) + S (Z.to_nat max_retries - k))%nat by lia.
  rewrite seq_app, map_app.
  replace (1 + (k - 1))%nat with k by lia. cbn [seq map].
  destruct (retry_loop_failures player_name max_retries base_delay Hdelay
              (k - 1) 1
              (Z.of_nat k :: map Z.of_nat (seq (S k) (Z.to_nat max_retries - k)))
              None w) as [last_exc' ->].
  { intros i Hi. apply Hfail. lia. }
  { intros i Hi. lia. }
  cbn [retry_loop]. unfold try_except.
  rewrite attempt_successful with (payload := payload).
  - unfold record_request, after_attempts, backoff_delays.
    cbn [requested slept dropped_file]. f_equal. f_equal.
    rewrite <- app_assoc. f_equal.
    replace (repeat player_name k) with (repeat player_name (S (k - 1)))
      by (f_equal; lia).
    apply repeat_snoc.
  - cbn [requested]. rewrite length_app, repeat_length.
    exact Hsucc.
Qed.

(** The transport part of C8: every one of the [max_retries] attempts
    fails; the exception of the last attempt leaves the function. *)
Lemma fetch_text_exhausted player_name max_retries base_delay w :
  (0 ≤ base_delay)%Z → (1 ≤ max_retries)%Z →
  (∀ i, (1 ≤ i ≤ Z.to_nat max_retries)%nat →
        is_Some (transient (attempt_reply net w player_name i))) →
  ∃ e,
    transient (attempt_reply net w player_name (Z.to_nat max_retries)) = Some e
    ∧ is_RequestException e = true
    ∧ fetch_text net player_name max_retries base_delay w
      = (Raise e, after_attempts w player_name base_delay
                    (Z.to_nat max_retries) (Z.to_nat max_retries - 1)).
Proof.
  intros Hdelay Hmax Hfail.
  set (n := Z.to_nat max_retries) in *.
  destruct (Hfail n) as [e He]; [lia|].
  exists e. split; [exact He|].
  unfold fetch_text. rewrite py_range_attempts. fold n.
  assert (Hseq : seq 1 n = (seq 1 (n - 1) ++ [n])%list).
  { transitivity (seq 1 ((n - 1) + 1)); [f_equal; lia|].
    rewrite seq_app. cbn [seq]. do 2 f_equal. lia. }
  rewrite Hseq, map_app. cbn [map].
  destruct (retry_loop_failures player_name max_retries base_delay Hdelay
              (n - 1) 1 [Z.of_nat n] None w) as [last_exc' ->].
  { intros i Hi. apply Hfail. lia. }
  { intros i Hi. lia. }
  cbn [retry_loop]. unfold try_except.
  unfold attempt_reply in He.
  edestruct (attempt_transient player_name) as [-> Hreq].
  { cbn [requested]. rewrite length_app, repeat_length. exact He. }
  split; [exact Hreq|]. rewrite Hreq.
  replace (Z.of_nat n =? max_retries)%Z with true by (symmetry; apply Z.eqb_eq; lia).
  unfold raise, record_request, after_attempts, backoff_delays.
  cbn [requested slept dropped_file]. f_equal. f_equal.
  rewrite <- app_assoc. f_equal.
  replace (repeat player_name n) with (repeat player_name (S (n - 1)))
    by (f_equal; lia).
  apply repeat_snoc.
Qed.

(** The transport part of C2: the first reply is a 404. *)
Lemma fetch_text_not_found player_name max_retries base_delay w :
  (1 ≤ max_retries)%Z →
  not_found (attempt_reply net w player_name 1) = true →
  fetch_text net player_name max_retries base_delay w
  = (Raise (not_on_hiscores player_name), record_request player_name w).
Proof.
  intros Hmax Hnf.
  unfold fetch_text. rewrite py_range_attempts.
  replace (Z.to_nat max_retries) with (S (Z.to_nat max_retries - 1)) by lia.
  cbn [seq map retry_loop]. unfold try_except.
  rewrite attempt_not_found; [done|].
  unfold attempt_reply in Hnf. by rewrite Nat.add_0_r in Hnf.
Qed.

End Retrier.

Lemma request_exception_is_no_ValueError (e : exn) :
  is_RequestException e = true → as_ValueError e = None.
Proof. by destruct e. Qed.

Lemma backoff_delays_length base_delay n : length (backoff_delays base_delay n) = n.
Proof. unfold backoff_delays. by rewrite length_map, length_seq. Qed.

Lemma backoff_delays_lookup base_delay n (i : nat) :
  (i < n)%nat →
  backoff_delays base_delay n !! i = Some (base_delay * Z.of_nat (i + 1))%Z.
Proof.
  intros Hi. unfold backoff_delays.
  rewrite list_lookup_fmap, lookup_seq_lt by done. simpl.
  do 3 f_equal. lia.
Qed.

Lemma fetch_player_stats_of_text net player_name max_retries base_delay w :
  fetch_player_stats net player_name max_retries base_delay w
  = match fetch_text net player_name max_retries base_delay w with
    | (Ok payload, w') => (decode_stats payload, w')
    | (Raise e, w') => (Raise e, w')
    end.
Proof. reflexivity. Qed.

(** C1. Transient failures on attempts [1..k-1] and a success on attempt
    [k ≤ max_retries]: the payload of attempt [k] is what the loop hands to
    the decoder, [k] requests were made, and the sleeps are
    [base_delay * 1, ..., base_delay * (k - 1)] in that order, none after
    the successful attempt. *)
Theorem C1_linear_backoff net (player_name : string) (max_retries base_delay : Z)
    (k : nat) (payload : string) (w : World) :
  (0 ≤ base_delay)%Z → (1 ≤ k)%nat → (Z.of_nat k ≤ max_retries)%Z →
  (∀ i, (1 ≤ i < k)%nat → is_Some (transient (attempt_reply net w player_name i))) →
  successful (attempt_reply net w player_name k) = Some payload →
  let w' := after_attempts w player_name base_delay k (k - 1) in
  fetch_text net player_name max_retries base_delay w = (Ok payload, w')
  ∧ fetch_player_stats net player_name max_retries base_delay w
    = (decode_stats payload, w')
  ∧ requested w' = (requested w ++ repeat player_name k)%list
  ∧ (∃ delays, slept w' = (slept w ++ delays)%list
               ∧ length delays = (k - 1)%nat
               ∧ ∀ i, (i < k - 1)%nat →
                      delays !! i = Some (base_delay * Z.of_nat (i + 1))%Z)
  ∧ dropped_file w' = dropped_file w.
Proof.
  intros Hdelay Hk Hmax Hfail Hsucc w'.
  pose proof (fetch_text_success net player_name max_retries base_delay k payload w
                Hdelay Hk Hmax Hfail Hsucc) as Htext.
  split; [exact Htext|]. split.
  { rewrite fetch_player_stats_of_text, Htext. reflexivity. }
  split; [reflexivity|]. split; [|reflexivity].
  exists (backoff_delays base_delay (k - 1)).
  split; [reflexivity|]. split; [apply backoff_delays_length|].
  intros i Hi. by apply backoff_delays_lookup.
Qed.

(** C8. When all [max_retries] attempts fail transiently, the exception of
    the last attempt leaves [fetch_player_stats]; [build_database] then
    goes on with the next candidate, having written nothing to the
    dropped-player file and added no row. *)
Theorem C8_exhaustion_surfaces net (player_name : string) (w : World) :
  (∀ max_retries base_delay,
     (0 ≤ base_delay)%Z → (1 ≤ max_retries)%Z →
     (∀ i, (1 ≤ i ≤ Z.to_nat max_retries)%nat →
           is_Some (transient (attempt_reply net w player_name i))) →
     ∃ e,
       transient (attempt_reply net w player_name (Z.to_nat max_retries)) = Some e
       ∧ fetch_player_stats net player_name max_retries base_delay w
         = (Raise e, after_attempts w player_name base_delay
                       (Z.to_nat max_retries) (Z.to_nat max_retries - 1)))
  ∧ ((∀ i, (1 ≤ i ≤ 5)%nat →
           is_Some (transient (attempt_reply net w player_name i))) →
     ∀ today rest rows,
       build_database_loop net today (player_name :: rest) rows w
       = build_database_loop net today rest rows (after_attempts w player_name 3 5 4)
       ∧ dropped_file (after_attempts w player_name 3 5 4) = dropped_file w).
Proof.
  split.
  - intros max_retries base_delay Hdelay Hmax Hfail.
    destruct (fetch_text_exhausted net player_name max_retries base_delay w
                Hdelay Hmax Hfail) as (e & He & _ & Htext).
    exists e. split; [exact He|].
    rewrite fetch_player_stats_of_text, Htext. reflexivity.
  - intros Hfail today rest rows. split; [|reflexivity].
    destruct (fetch_text_exhausted net player_name 5 3 w) as (e & _ & Hreq & Htext);
      [lia | lia | exact Hfail |].
    cbn [build_database_loop].
    rewrite fetch_player_stats_of_text, Htext.
    rewrite (request_exception_is_no_ValueError e Hreq). reflexivity.
Qed.

(** C2. A 404 on the first attempt: [fetch_player_stats] raises the
    [ValueError] that names the absence after one request and no sleep.
    That exception is no [RequestException] and carries the phrase tested
    by [build_database], while any exception left by exhausted transient
    failures is a [RequestException] and no [ValueError]. *)
Theorem C2_not_found_is_permanent net (player_name : string)
    (max_retries base_delay : Z) (w : World) :
  (1 ≤ max_retries)%Z →
  not_found (attempt_reply net w player_name 1) = true →
  let w' := record_request player_name w in
  fetch_player_stats net player_name max_retries base_delay w
  = (Raise (not_on_hiscores player_name), w')
  ∧ requested w' = (requested w ++ [player_name])%list
  ∧ slept w' = slept w
  ∧ is_RequestException (not_on_hiscores player_name) = false
  ∧ (∃ msg, as_ValueError (not_on_hiscores player_name) = Some msg
            ∧ contains "not on hiscores" msg = true)
  ∧ (∀ net2 name2 retries2 delay2 w2 e w2',
       (0 ≤ delay2)%Z → (1 ≤ retries2)%Z →
       (∀ i, (1 ≤ i ≤ Z.to_nat retries2)%nat →
             is_Some (transient (attempt_reply net2 w2 name2 i))) →
       fetch_player_stats net2 name2 retries2 delay2 w2 = (Raise e, w2') →
       is_RequestException e = true ∧ as_ValueError e = None).
Proof.
  intros Hmax Hnf w'.
  split.
  { rewrite fetch_player_stats_of_text.
    rewrite (fetch_text_not_found net player_name max_retries base_delay w Hmax Hnf).
    reflexivity. }
  split; [reflexivity|]. split; [reflexivity|]. split; [reflexivity|].
  split; [apply not_on_hiscores_message|].
  intros net2 name2 retries2 delay2 w2 e w2' Hdelay2 Hmax2 Hfail Hfetch.
  destruct (fetch_text_exhausted net2 name2 retries2 delay2 w2 Hdelay2 Hmax2 Hfail)
    as (e0 & _ & Hreq & Htext).
  rewrite fetch_player_stats_of_text, Htext in Hfetch.
  injection Hfetch as <- _.
  split; [exact Hreq | by apply request_exception_is_no_ValueError].
Qed.

(** ** What a fetch leaves untouched *)

Section FetchFrame.

Variable net : nat -> string -> reply.

Lemma attempt_request_frame player_name w :
  let out := attempt_request net player_name w in
  out.2 = record_request player_name w.
Proof.
  unfold attempt_request, bind, requests_get, raise_for_status, raise, ret.
  simpl. destruct (net _ _) as [resp|msg]; [|done].
  destruct (status_code resp =? 404)%Z; [done|].
  by destruct ((400 <=? status_code resp) && (status_code resp <? 600))%Z.
Qed.

(** The loop never touches the dropped-player file, only adds requests
    for [player_name], and makes at least one when an attempt is due. *)
Lemma retry_loop_frame player_name max_retries base_delay attempts last_exc w :
  let out := retry_loop net player_name max_retries base_delay attempts last_exc w in
  dropped_file out.2 = dropped_file w
  ∧ ∃ n, requested out.2 = (requested w ++ repeat player_name n)%list
         ∧ (attempts ≠ [] → (1 ≤ n)%nat).
Proof.
  revert last_exc w. induction attempts as [|attempt attempts IH]; intros last_exc w.
  - simpl. split; [done|]. exists 0%nat. by rewrite app_nil_r.
  - cbn [retry_loop]. unfold try_except.
    pose proof (attempt_request_frame player_name w) as Hframe. simpl in Hframe.
    destruct (attempt_request net player_name w) as [[payload|e] w1];
      simpl in Hframe; subst w1.
    + simpl. split; [done|]. by exists 1%nat.
    + destruct (is_RequestException e); [|simpl; split; [done | by exists 1%nat]].
      destruct (attempt =? max_retries)%Z;
        [simpl; split; [done | by exists 1%nat]|].
      unfold bind, time_sleep.
      destruct (base_delay * attempt <? 0)%Z;
        [simpl; split; [done | by exists 1%nat]|].
      cbn [record_request requested slept dropped_file].
      match goal with
      | |- context [retry_loop _ _ _ _ _ ?l ?w0] =>
          destruct (IH l w0) as [Hfile (n & Hreq & _)]
      end.
      simpl in Hfile, Hreq. simpl. split; [exact Hfile|].
      exists (S n). split; [|lia].
      rewrite Hreq. by rewrite <- app_assoc.
Qed.

Lemma fetch_player_stats_frame player_name w :
  let out := fetch_player_stats net player_name 5 3 w in
  dropped_file out.2 = dropped_file w
  ∧ ∃ n, (1 ≤ n)%nat ∧ requested out.2 = (requested w ++ repeat player_name n)%list.
Proof.
  cbv zeta. rewrite fetch_player_stats_of_text. unfold fetch_text.
  destruct (retry_loop_frame player_name 5 3 (py_range 1 (5 + 1)) None w)
    as [Hfile (n & Hreq & Hn)].
  assert (Hn' : (1 ≤ n)%nat) by (apply Hn; vm_compute; discriminate).
  destruct (retry_loop net player_name 5 3 (py_range 1 (5 + 1)) None w)
    as [[payload|e] w1]; cbn [snd] in *.
  all: split; [done|]; exists n; done.
Qed.

End FetchFrame.

Lemma mark_dropped_appends player_name w :
  ∃ before, dropped_file (mark_dropped player_name w) = Some (before ++ [[player_name]])%list
            ∧ requested (mark_dropped player_name w) = requested w
            ∧ slept (mark_dropped player_name w) = slept w.
Proof.
  unfold mark_dropped, append_dropped_player. simpl.
  destruct (dropped_file w) as [content|].
  - by exists content.
  - by exists [["player_name"]].
Qed.

Lemma mark_dropped_changes_file player_name w :
  dropped_file (mark_dropped player_name w) ≠ dropped_file w.
Proof.
  unfold mark_dropped, append_dropped_player. simpl.
  destruct (dropped_file w) as [content|]; [|done].
  intros [= H]. apply (f_equal length) in H. rewrite length_app in H. simpl in H. lia.
Qed.

Lemma misleading_payload_decodes_to_phrase :
  decode_stats misleading_payload
  = Raise (ValueError "invalid literal for int() with base 10: 'not on hiscores'").
Proof. reflexivity. Qed.

(** C10. What [build_database] does with one candidate, by the outcome of
    [fetch_player_stats]: a [ValueError] whose text holds the phrase has
    the name appended to the dropped-player file and gives no row; any
    other exception gives no row and leaves the file as it was; so a
    decoding [ValueError] with the phrase in its text marks the player as
    dropped, and such a payload exists. *)
Theorem C10_dropped_by_message net (today player_name : string)
    (rest : list string) (rows : list (gmap string Cell)) (w : World) :
  let out := fetch_player_stats net player_name 5 3 w in
  dropped_file out.2 = dropped_file w
  ∧ dropped_file (mark_dropped player_name out.2) ≠ dropped_file out.2
  ∧ (∀ e msg,
       out.1 = Raise e → as_ValueError e = Some msg →
       contains "not on hiscores" msg = true →
       build_database_loop net today (player_name :: rest) rows w
       = build_database_loop net today rest rows (mark_dropped player_name out.2))
  ∧ (∀ e,
       out.1 = Raise e →
       (∀ msg, as_ValueError e = Some msg → contains "not on hiscores" msg = false) →
       build_database_loop net today (player_name :: rest) rows w
       = build_database_loop net today rest rows out.2)
  ∧ (∀ stats,
       out.1 = Ok stats →
       build_database_loop net today (player_name :: rest) rows w
       = match build_row player_name today stats with
         | Raise e => (Raise e, out.2)
         | Ok row => build_database_loop net today rest (rows ++ [row])%list out.2
         end)
  ∧ (∀ payload msg,
       successful (attempt_reply net w player_name 1) = Some payload →
       decode_stats payload = Raise (ValueError msg) →
       contains "not on hiscores" msg = true →
       build_database_loop net today (player_name :: rest) rows w
       = build_database_loop net today rest rows
           (mark_dropped player_name (record_request player_name w)))
  ∧ (∃ payload msg,
       decode_stats payload = Raise (ValueError msg)
       ∧ contains "not on hiscores" msg = true).
Proof.
  intros out.
  assert (Hstep : ∀ w', (append_dropped_player player_name ;;
                          build_database_loop net today rest rows)%M w'
                        = build_database_loop net today rest rows
                            (mark_dropped player_name w')) by reflexivity.
  split; [apply (fetch_player_stats_frame net player_name w)|].
  split; [apply mark_dropped_changes_file|].
  split; [|split; [|split; [|split]]].
  - intros e msg Hout Hval Hphrase. cbn [build_database_loop]. fold out.
    destruct out as [r w']. simpl in Hout. subst r. cbn [snd].
    by rewrite Hval, Hphrase.
  - intros e Hout Hother. cbn [build_database_loop]. fold out.
    destruct out as [r w']. simpl in Hout. subst r. cbn [snd].
    destruct (as_ValueError e) as [msg|] eqn:Hval; [|done].
    by rewrite (Hother msg).
  - intros stats Hout. cbn [build_database_loop]. fold out.
    destruct out as [r w']. simpl in Hout. subst r. reflexivity.
  - intros payload msg Hsucc Hdecode Hphrase. cbn [build_database_loop].
    rewrite fetch_player_stats_of_text.
    rewrite (fetch_text_success net player_name 5 3 1 payload w); [|lia..| |done].
    + rewrite Hdecode. cbn [as_ValueError]. rewrite Hphrase, Hstep.
      f_equal. unfold after_attempts, record_request, backoff_delays. simpl.
      by rewrite app_nil_r.
    + intros i Hi. lia.
  - exists misleading_payload. eexists. split; [apply misleading_payload_decodes_to_phrase|].
    reflexivity.
Qed.

(** ** Malformed skill rows *)

Lemma unpack3_raises_ValueError row e :
  unpack3 row = Raise e → ∃ msg, e = ValueError msg.
Proof.
  unfold unpack3. intros H. repeat case_match; simplify_eq; eauto.
Qed.

Lemma decode_skills_rejects names before row after (m : gmap string SkillEntry) :
  (length before < length names)%nat →
  Forall (fun r => skill_row_ok r = true) before →
  skill_row_ok row = false →
  ∃ msg, decode_skills (zip names (before ++ row :: after)) m = Raise (ValueError msg).
Proof.
  revert names m. induction before as [|b before IH]; intros names m Hlen Hok Hbad.
  - destruct names as [|name names]; [simpl in Hlen; lia|].
    simpl. destruct (unpack3 row) as [[[r lvl] x]|e] eqn:Hun.
    + unfold unpack3 in Hun. destruct row as [|a [|b [|c [|? ?]]]]; try discriminate.
      injection Hun as <- <- <-. simpl in Hbad. cbn [rbind].
      destruct (py_int a) as [ra|ea] eqn:Ha;
        [|destruct (py_int_raises_ValueError _ _ Ha) as [msg ->]; by eexists].
      destruct (py_int b) as [rb|eb] eqn:Hb;
        [|destruct (py_int_raises_ValueError _ _ Hb) as [msg ->]; by eexists].
      destruct (py_int c) as [rc|ec] eqn:Hc;
        [|destruct (py_int_raises_ValueError _ _ Hc) as [msg ->]; by eexists].
      discriminate.
    + destruct (unpack3_raises_ValueError _ _ Hun) as [msg ->]. by eexists.
  - destruct names as [|name names]; [simpl in Hlen; lia|].
    apply Forall_cons in Hok as [Hb Hok].
    destruct b as [|a [|b' [|c [|? ?]]]]; try discriminate.
    simpl in Hb. apply andb_prop in Hb as [Hab Hc]. apply andb_prop in Hab as [Ha Hb].
    cbn [app zip zip_with decode_skills unpack3 rbind].
    destruct (py_int a) as [ra|]; [|done].
    destruct (py_int b') as [rb|]; [|done].
    destruct (py_int c) as [rc|]; [|done]. cbn [rbind].
    apply IH; [simpl in Hlen; lia | done | done].
Qed.

(** The parts of C4 that hold: among the rows read as skills, the first
    one that has not exactly three integer fields makes the decoder raise
    a [ValueError], which is no [RequestException]. *)
Lemma decode_rows_rejects_malformed_skill_row before row after :
  (length before < length SKILLS)%nat →
  Forall (fun r => skill_row_ok r = true) before →
  skill_row_ok row = false →
  ∃ msg, decode_rows (before ++ row :: after) = Raise (ValueError msg)
         ∧ is_RequestException (ValueError msg) = false.
Proof.
  intros Hlen Hok Hbad. unfold decode_rows.
  rewrite take_app_ge by lia.
  replace (length SKILLS - length before)%nat
    with (S (length SKILLS - length before - 1)) by lia.
  cbn [take].
  destruct (decode_skills_rejects SKILLS before row
              (take (length SKILLS - length before - 1) after) ∅ Hlen Hok Hbad)
    as [msg ->].
  by exists msg.
Qed.

(** ... and the fetch that received such a payload on attempt [k] makes no
    further request: decoding is not retried. *)
Lemma malformed_skill_row_not_retried net player_name max_retries base_delay
    (k : nat) payload before row after w :
  (0 ≤ base_delay)%Z → (1 ≤ k)%nat → (Z.of_nat k ≤ max_retries)%Z →
  (∀ i, (1 ≤ i < k)%nat → is_Some (transient (attempt_reply net w player_name i))) →
  successful (attempt_reply net w player_name k) = Some payload →
  parse_rows payload = Ok (before ++ row :: after)%list →
  (length before < length SKILLS)%nat →
  Forall (fun r => skill_row_ok r = true) before →
  skill_row_ok row = false →
  ∃ msg, fetch_player_stats net player_name max_retries base_delay w
         = (Raise (ValueError msg), after_attempts w player_name base_delay k (k - 1)).
Proof.
  intros Hdelay Hk Hmax Hfail Hsucc Hparse Hlen Hok Hbad.
  destruct (decode_rows_rejects_malformed_skill_row before row after Hlen Hok Hbad)
    as (msg & Hdec & _).
  exists msg. rewrite fetch_player_stats_of_text.
  rewrite (fetch_text_success net player_name max_retries base_delay k payload w)
    by done.
  by rewrite (decode_stats_rows _ _ Hparse), Hdec.
Qed.

(** C4, where the code departs from it.  A payload with fewer rows than
    there are skills is not rejected: [zip] stops at the shorter list, and
    the decoder returns statistics that lack the remaining skills. *)
Theorem C4_short_skill_block_is_accepted :
  parse_rows short_payload = Ok [["1"; "2"; "3"]]
  ∧ decode_stats short_payload = Ok (mkStats {["overall" := mkSkill 1 2 3]} ∅)
  ∧ fetch_player_stats sample_net "Shorty" 5 3 empty_world
    = (Ok (mkStats {["overall" := mkSkill 1 2 3]} ∅),
       mkWorld ["Shorty"] [] None).
Proof. split; [|split]; vm_compute; reflexivity. Qed.

(** ** The batch loop *)

(** C5, where the code departs from it.  The candidate [Shorty] is served
    a payload with one skill row; the fetch succeeds, building the row
    raises [KeyError] outside the [try], and [build_database] ends there:
    the next candidate is never requested. *)
Theorem C5_short_payload_aborts_batch :
  build_database sample_net "2026-01-01" ["Shorty"; "Zezima"] empty_world
  = (Raise (KeyError "attack"), mkWorld ["Shorty"] [] None)
  ∧ "Zezima" ∉ requested
      (build_database sample_net "2026-01-01" ["Shorty"; "Zezima"] empty_world).2.
Proof.
  split; [vm_compute; reflexivity|].
  apply (bool_decide_unpack _). vm_compute. exact I.
Qed.

(** The same for any server and any batch: statistics that lack a skill
    end the run with the remaining candidates untried. *)
Lemma incomplete_stats_abort_batch net today player_name rest rows w stats :
  (fetch_player_stats net player_name 5 3 w).1 = Ok stats →
  ¬ complete stats →
  ∃ skill, build_database_loop net today (player_name :: rest) rows w
           = (Raise (KeyError skill), (fetch_player_stats net player_name 5 3 w).2).
Proof.
  intros Hout Hincomplete. cbn [build_database_loop].
  destruct (fetch_player_stats net player_name 5 3 w) as [r w']. simpl in Hout. subst r.
  unfold build_row. cbn [snd].
  assert (Hmiss : ∃ before skill after,
             SKILLS = (before ++ skill :: after)%list
             ∧ (∀ s, s ∈ before → is_Some (skills stats !! s))
             ∧ skills stats !! skill = None).
  { unfold complete in Hincomplete. revert Hincomplete.
    generalize SKILLS. intros l. induction l as [|s l IH]; intros Hinc.
    - exfalso. apply Hinc. intros s Hs. by apply elem_of_nil in Hs.
    - destruct (skills stats !! s) as [v|] eqn:Hs.
      + destruct IH as (before & skill & after & -> & Hbefore & Hskill).
        { intros Hall. apply Hinc. intros s' Hs'.
          apply elem_of_cons in Hs' as [->|Hs']; [by rewrite Hs | by apply Hall]. }
        exists (s :: before), skill, after. split; [done|]. split; [|done].
        intros s' Hs'. apply elem_of_cons in Hs' as [->|Hs']; [by rewrite Hs | by apply Hbefore].
      + exists [], s, l. split; [done|]. split; [|done].
        intros s' Hs'. by apply elem_of_nil in Hs'. }
  destruct Hmiss as (before & skill & after & Hsplit & Hbefore & Hskill).
  exists skill.
  by rewrite (skill_columns_missing SKILLS stats _ skill before after Hsplit Hbefore Hskill).
Qed.

(** What does hold: as long as every decoded payload is complete, no
    outcome of a fetch stops the loop; every candidate is requested and
    the rows already built are kept. *)
Lemma complete_stats_isolate_failures net today :
  (∀ name w stats, (fetch_player_stats net name 5 3 w).1 = Ok stats → complete stats) →
  ∀ player_names rows w,
    let out := build_database_loop net today player_names rows w in
    (∃ rows', out.1 = Ok (rows ++ rows')%list ∧ (length rows' ≤ length player_names)%nat)
    ∧ (∀ name, name ∈ player_names → name ∈ requested out.2)
    ∧ (∀ name, name ∈ requested w → name ∈ requested out.2).
Proof.
  intros Hcomplete player_names.
  induction player_names as [|name rest IH]; intros rows w.
  - simpl. split; [exists []; by rewrite app_nil_r|]. split; [|done].
    intros name Hname. by apply elem_of_nil in Hname.
  - cbv zeta. cbn [build_database_loop].
    destruct (fetch_player_stats_frame net name w) as [_ (n & Hn & Hreq)].
    pose proof (Hcomplete name w) as Hc.
    destruct (fetch_player_stats net name 5 3 w) as [[stats|e] w1]; cbn [fst snd] in *.
    + destruct (skill_columns_total SKILLS stats
                  (<["date" := CStr today]> (<["player_name" := CStr name]> ∅)))
        as [row' Hrow']; [by apply Hc|].
      unfold build_row. rewrite Hrow'. cbn [rbind].
      destruct (IH (rows ++ [boss_columns BOSSES stats row'])%list w1)
        as [(rows' & Hrows & Hlen) [Hall Hmono]].
      split; [|split].
      * exists (boss_columns BOSSES stats row' :: rows'). split; [|simpl; lia].
        by rewrite Hrows, <- app_assoc.
      * intros name' Hin. apply elem_of_cons in Hin as [->|Hin]; [|by apply Hall].
        apply Hmono. rewrite Hreq. apply elem_of_app. right.
        destruct n; [lia|]. simpl. apply list_elem_of_here.
      * intros name' Hin. apply Hmono. rewrite Hreq. apply elem_of_app. by left.
    + assert (Hskip : ∀ w2, requested w2 = requested w1 →
                let out := build_database_loop net today rest rows w2 in
                (∃ rows', out.1 = Ok (rows ++ rows')%list
                          ∧ (length rows' ≤ length (name :: rest))%nat)
                ∧ (∀ name', name' ∈ name :: rest → name' ∈ requested out.2)
                ∧ (∀ name', name' ∈ requested w → name' ∈ requested out.2)).
      { intros w2 Hw2.
        destruct (IH rows w2) as [(rows' & Hrows & Hlen) [Hall Hmono]].
        split; [|split].
        - exists rows'. split; [done | simpl; lia].
        - intros name' Hin. apply elem_of_cons in Hin as [->|Hin]; [|by apply Hall].
          apply Hmono. rewrite Hw2, Hreq. apply elem_of_app. right.
          destruct n; [lia|]. simpl. apply list_elem_of_here.
        - intros name' Hin. apply Hmono. rewrite Hw2, Hreq. apply elem_of_app. by left. }
      destruct (as_ValueError e) as [msg|]; [|by apply Hskip].
      destruct (contains "not on hiscores" msg); [|by apply Hskip].
      apply (Hskip (mark_dropped name w1)).
      by destruct (mark_dropped_appends name w1) as (_ & _ & -> & _).
Qed.

(** ** The dropped-player store *)

(** The two guards of [load_dropped_players]: an absent file, and a file
    pandas reads as a table without a [player_name] column, give the empty
    set. *)
Lemma load_dropped_players_guards read_table (file : option (list (list string))) :
  (file = None
   ∨ ∃ content df, file = Some content ∧ pd_read_csv read_table content = Ok df
                   ∧ "player_name" ∉ columns df) →
  load_dropped_players read_table file = Ok ∅.
Proof.
  intros [->|(content & df & -> & Hread & Hcol)]; [reflexivity|].
  unfold load_dropped_players. rewrite Hread. cbn [rbind].
  by rewrite bool_decide_eq_false_2.
Qed.

(** Nothing stands between [pd.read_csv] and the caller: the function
    raises exactly when the file exists and pandas raises on it, and with
    the same exception. *)
Lemma load_dropped_players_raises read_table (file : option (list (list string))) e :
  load_dropped_players read_table file = Raise e
  ↔ ∃ content, file = Some content ∧ pd_read_csv read_table content = Raise e.
Proof.
  unfold load_dropped_players. split.
  - destruct file as [content|]; [|done].
    destruct (pd_read_csv read_table content) as [df|e'] eqn:Hread; cbn [rbind].
    + by case_match.
    + intros [= <-]. by exists content.
  - intros (content & -> & ->). reflexivity.
Qed.

(** C9, where the code departs from it.  A dropped-player file that exists
    and holds no record has no [player_name] column, yet
    [load_dropped_players] does not return the empty set for it: it raises
    the [EmptyDataError] of [pd.read_csv], which runs before the column
    test and outside any handler.  This holds whatever pandas does with
    the files that have records. *)
Theorem C9_existing_empty_file_raises
    (read_table : list (list string) -> result DataFrame) :
  load_dropped_players read_table (Some [])
  = Raise (EmptyDataError "No columns to parse from file")
  ∧ load_dropped_players read_table (Some []) ≠ Ok ∅.
Proof.
  split; [reflexivity|].
  intros H. discriminate H.
Qed.

(** ** The theorems at work on the sample server *)

Lemma C1_linear_backoff_witness :
  fetch_text sample_net "Zezima" 5 3 empty_world
  = (Ok full_payload, mkWorld ["Zezima"; "Zezima"; "Zezima"] [3%Z; 6%Z] None).
Proof.
  destruct (C1_linear_backoff sample_net "Zezima" 5 3 3 full_payload empty_world)
    as [Htext _].
  - lia.
  - lia.
  - lia.
  - intros i Hi. assert (i = 1 ∨ i = 2)%nat as [-> | ->] by lia;
      vm_compute; eauto.
  - vm_compute. reflexivity.
  - exact Htext.
Defined.

Lemma C2_not_found_is_permanent_witness :
  fetch_player_stats sample_net "GhostName" 5 3 empty_world
  = (Raise (ValueError "Player 'GhostName' not on hiscores."),
     mkWorld ["GhostName"] [] None).
Proof.
  destruct (C2_not_found_is_permanent sample_net "GhostName" 5 3 empty_world)
    as [Hfetch _].
  - lia.
  - vm_compute. reflexivity.
  - exact Hfetch.
Defined.


Lemma C7_boss_block_right_aligned_witness :
  ∃ stats, decode_stats full_payload = Ok stats
           ∧ bosses stats !! "abyssal_sire" = Some (mkBoss (Some 41%Z) (Some 250%Z))
           ∧ bosses stats !! "zulrah" = Some (mkBoss (Some 7%Z) None).
Proof.
  destruct (C7_boss_block_right_aligned full_payload full_rows)
    as (stats & Hdecode & _ & _ & Hboss).
  - vm_compute. reflexivity.
  - vm_compute. reflexivity.
  - vm_compute. lia.
  - exists stats. split; [exact Hdecode|]. split.
    + destruct (Hboss 0%nat "abyssal_sire" eq_refl) as (row & Hrow & ->).
      vm_compute in Hrow. by injection Hrow as <-.
    + destruct (Hboss 66%nat "zulrah" eq_refl) as (row & Hrow & ->).
      vm_compute in Hrow. by injection Hrow as <-.
Defined.

Lemma C8_exhaustion_surfaces_witness :
  fetch_player_stats dead_net "Zezima" 5 3 empty_world
  = (Raise (RequestException "timed out"),
     mkWorld (repeat "Zezima" 5) [3%Z; 6%Z; 9%Z; 12%Z] None)
  ∧ build_database dead_net "2026-01-01" ["Zezima"] empty_world
    = (Ok [], mkWorld (repeat "Zezima" 5) [3%Z; 6%Z; 9%Z; 12%Z] None).
Proof.
  assert (Hdead : ∀ i, (1 ≤ i ≤ 5)%nat →
                       is_Some (transient (attempt_reply dead_net empty_world "Zezima" i))).
  { intros i _. by eexists. }
  destruct (C8_exhaustion_surfaces dead_net "Zezima" empty_world) as [Hfetch Hbatch].
  split.
  - destruct (Hfetch 5%Z 3%Z) as (e & He & ->); [lia | lia | exact Hdead |].
    vm_compute in He. by injection He as <-.
  - unfold build_database.
    destruct (Hbatch Hdead "2026-01-01" [] []) as [-> _]. reflexivity.
Defined.

Lemma C10_dropped_by_message_witness :
  build_database sample_net "2026-01-01" ["Tricky"] empty_world
  = (Ok [], mkWorld ["Tricky"] [] (Some [["player_name"]; ["Tricky"]])).
Proof.
  destruct (C10_dropped_by_message sample_net "2026-01-01" "Tricky" [] [] empty_world)
    as (_ & _ & _ & _ & _ & Hdecoding & _).
  unfold build_database.
  rewrite (Hdecoding misleading_payload
             "invalid literal for int() with base 10: 'not on hiscores'").
  - reflexivity.
  - vm_compute. reflexivity.
  - vm_compute. reflexivity.
  - vm_compute. reflexivity.
Defined.

(** The run of the two candidates [Zezima] and [GhostName]: one row, with
    no rank for the bosses the payload marks with [-1], and [GhostName]
    as the only entry of the dropped-player file. *)
Example zezima_and_ghost :
  let out := build_database sample_net "2026-01-01" ["Zezima"; "GhostName"] empty_world in
  row_cells ["player_name"; "overall_xp"; "abyssal_sire_kc"; "vorkath_rank";
             "vorkath_kc"; "zulrah_rank"; "zulrah_kc"] out.1
  = Ok [[Some (CStr "Zezima"); Some (CInt 13034431); Some (CInt 250); Some CNone;
         Some (CInt 0); Some (CInt 7); Some CNone]]
  ∧ dropped_file out.2 = Some [["player_name"]; ["GhostName"]]
  ∧ slept out.2 = [3%Z; 6%Z].
Proof. vm_compute. repeat split. Qed.

(** * Further properties of the fetch *)

Lemma py_range_empty (max_retries : Z) :
  (max_retries ≤ 0)%Z → py_range 1 (max_retries + 1) = [].
Proof.
  intros H. unfold py_range.
  replace (Z.to_nat (max_retries + 1 - 1)) with 0%nat by lia. reflexivity.
Qed.

(** X1. With [max_retries ≤ 0] the loop body never runs: no request is
    made, nothing is slept, and the [else] clause raises the
    [RuntimeError] that names the player. *)
Theorem fetch_without_attempts net (player_name : string)
    (max_retries base_delay : Z) (w : World) :
  (max_retries ≤ 0)%Z →
  fetch_player_stats net player_name max_retries base_delay w
  = (Raise (RuntimeError ("Unexpected error fetching stats for " +:+ player_name)), w).
Proof.
  intros H. rewrite fetch_player_stats_of_text. unfold fetch_text.
  rewrite (py_range_empty _ H). reflexivity.
Qed.

Lemma fetch_without_attempts_witness :
  fetch_player_stats sample_net "Zezima" 0 3 empty_world
  = (Raise (RuntimeError "Unexpected error fetching stats for Zezima"), empty_world).
Proof. apply (fetch_without_attempts sample_net "Zezima" 0 3 empty_world). lia. Defined.

Lemma fetch_text_not_found_after net player_name max_retries base_delay (k : nat) w :
  (0 ≤ base_delay)%Z → (1 ≤ k)%nat → (Z.of_nat k ≤ max_retries)%Z →
  (∀ i, (1 ≤ i < k)%nat → is_Some (transient (attempt_reply net w player_name i))) →
  not_found (attempt_reply net w player_name k) = true →
  fetch_text net player_name max_retries base_delay w
  = (Raise (not_on_hiscores player_name), after_attempts w player_name base_delay k (k - 1)).
Proof.
  intros Hdelay Hk Hmax Hfail Hnf.
  unfold fetch_text. rewrite py_range_attempts.
  replace (Z.to_nat max_retries) with ((k - 1) + S (Z.to_nat max_retries - k))%nat by lia.
  rewrite seq_app, map_app.
  replace (1 + (k - 1))%nat with k by lia. cbn [seq map].
  destruct (retry_loop_failures net player_name max_retries base_delay Hdelay
              (k - 1) 1
              (Z.of_nat k :: map Z.of_nat (seq (S k) (Z.to_nat max_retries - k)))
              None w) as [last_exc' ->].
  { intros i Hi. apply Hfail. lia. }
  { intros i Hi. lia. }
  cbn [retry_loop]. unfold try_except.
  rewrite attempt_not_found.
  - cbn [is_RequestException not_on_hiscores].
    unfold record_request, after_attempts, backoff_delays.
    cbn [requested slept dropped_file]. f_equal. f_equal.
    rewrite <- app_assoc. f_equal.
    replace (repeat player_name k) with (repeat player_name (S (k - 1)))
      by (f_equal; lia).
    apply repeat_snoc.
  - cbn [requested]. rewrite length_app, repeat_length. exact Hnf.
Qed.

(** X2. A 404 that arrives after transient failures is as final as one on
    the first attempt: the [ValueError] naming the absence is raised at
    once, after [k] requests and the [k - 1] back-off sleeps of the failed
    attempts, and no later attempt is made. *)
Theorem not_found_after_failures net (player_name : string)
    (max_retries base_delay : Z) (k : nat) (w : World) :
  (0 ≤ base_delay)%Z → (1 ≤ k)%nat → (Z.of_nat k ≤ max_retries)%Z →
  (∀ i, (1 ≤ i < k)%nat → is_Some (transient (attempt_reply net w player_name i))) →
  not_found (attempt_reply net w player_name k) = true →
  fetch_player_stats net player_name max_retries base_delay w
  = (Raise (not_on_hiscores player_name),
     mkWorld (requested w ++ repeat player_name k)%list
             (slept w ++ backoff_delays base_delay (k - 1))%list
             (dropped_file w)).
Proof.
  intros Hdelay Hk Hmax Hfail Hnf.
  rewrite fetch_player_stats_of_text.
  by rewrite (fetch_text_not_found_after net player_name max_retries base_delay k w).
Qed.

Lemma not_found_after_failures_witness :
  fetch_player_stats late_404_net "Zezima" 5 3 empty_world
  = (Raise (ValueError "Player 'Zezima' not on hiscores."),
     mkWorld ["Zezima"; "Zezima"; "Zezima"] [3%Z; 6%Z] None).
Proof.
  apply (not_found_after_failures late_404_net "Zezima" 5 3 3 empty_world).
  - lia.
  - lia.
  - lia.
  - intros i Hi. assert (i = 1 ∨ i = 2)%nat as [-> | ->] by lia; vm_compute; eauto.
  - vm_compute. reflexivity.
Defined.

(** Every reply is a transient failure, a success or a 404. *)
Lemma reply_cases (r : reply) :
  is_Some (transient r) ∨ is_Some (successful r) ∨ not_found r = true.
Proof.
  destruct r as [resp|msg]; simpl; [|left; by eexists].
  destruct (Z.eqb_spec (status_code resp) 404) as [E|_]; [by right; right|].
  destruct ((400 <=? status_code resp) && (status_code resp <? 600))%Z.
  - left. by eexists.
  - right. left. by eexists.
Qed.

(** Among the first [m] attempts either all replies are transient
    failures, or there is a first one that is not. *)
Lemma first_decisive_reply net (w : World) (player_name : string) (m : nat) :
  (∀ i, (1 ≤ i ≤ m)%nat → is_Some (transient (attempt_reply net w player_name i)))
  ∨ ∃ k, (1 ≤ k ≤ m)%nat
         ∧ (∀ i, (1 ≤ i < k)%nat → is_Some (transient (attempt_reply net w player_name i)))
         ∧ (is_Some (successful (attempt_reply net w player_name k))
            ∨ not_found (attempt_reply net w player_name k) = true).
Proof.
  induction m as [|m IH].
  - left. intros i Hi. lia.
  - destruct IH as [Hall|(k & Hk & Hbefore & Hdec)].
    + destruct (reply_cases (attempt_reply net w player_name (S m))) as [Ht|Hdec].
      * left. intros i Hi. destruct (decide (i = S m)) as [->|Hne]; [done|].
        apply Hall. lia.
      * right. exists (S m). split; [lia|]. split; [|done].
        intros i Hi. apply Hall. lia.
    + right. exists k. split; [lia|]. by split.
Qed.

(** The loop of the fetch, by the first reply that is not a transient
    failure. *)
Lemma fetch_text_cases net (player_name : string) (max_retries base_delay : Z)
    (w : World) :
  (0 ≤ base_delay)%Z → (1 ≤ max_retries)%Z →
  (∃ (k : nat) payload,
     (1 ≤ k ≤ Z.to_nat max_retries)%nat
     ∧ (∀ i, (1 ≤ i < k)%nat → is_Some (transient (attempt_reply net w player_name i)))
     ∧ successful (attempt_reply net w player_name k) = Some payload
     ∧ fetch_text net player_name max_retries base_delay w
       = (Ok payload, after_attempts w player_name base_delay k (k - 1)))
  ∨ (∃ k : nat,
       (1 ≤ k ≤ Z.to_nat max_retries)%nat
       ∧ (∀ i, (1 ≤ i < k)%nat → is_Some (transient (attempt_reply net w player_name i)))
       ∧ not_found (attempt_reply net w player_name k) = true
       ∧ fetch_text net player_name max_retries base_delay w
         = (Raise (not_on_hiscores player_name),
            after_attempts w player_name base_delay k (k - 1)))
  ∨ (∃ e,
       (∀ i, (1 ≤ i ≤ Z.to_nat max_retries)%nat →
             is_Some (transient (attempt_reply net w player_name i)))
       ∧ transient (attempt_reply net w player_name (Z.to_nat max_retries)) = Some e
       ∧ fetch_text net player_name max_retries base_delay w
         = (Raise e, after_attempts w player_name base_delay
                       (Z.to_nat max_retries) (Z.to_nat max_retries - 1))).
Proof.
  intros Hdelay Hmax.
  destruct (first_decisive_reply net w player_name (Z.to_nat max_retries))
    as [Hall|(k & Hk & Hbefore & [[payload Hsucc]|Hnf])].
  - right. right.
    destruct (fetch_text_exhausted net player_name max_retries base_delay w
                Hdelay Hmax Hall) as (e & He & _ & Htext).
    by exists e.
  - left. exists k, payload. split; [done|]. split; [done|]. split; [done|].
    by rewrite (fetch_text_success net player_name max_retries base_delay k payload w)
      by (done || lia).
  - right. left. exists k. split; [done|]. split; [done|]. split; [done|].
    by rewrite (fetch_text_not_found_after net player_name max_retries base_delay k w)
      by (done || lia).
Qed.

(** X3. With at least one attempt allowed and a non-negative delay, the
    outcome of a fetch is decided by the first reply that is not a
    transient failure: a success hands its payload to the decoder, a 404
    raises the absence error, and when no such reply comes within
    [max_retries] attempts the exception of the last attempt is raised.
    In each case the requests and sleeps are those of the attempts made. *)
Theorem fetch_outcomes net (player_name : string) (max_retries base_delay : Z)
    (w : World) :
  (0 ≤ base_delay)%Z → (1 ≤ max_retries)%Z →
  (∃ (k : nat) payload,
     (1 ≤ k ≤ Z.to_nat max_retries)%nat
     ∧ (∀ i, (1 ≤ i < k)%nat → is_Some (transient (attempt_reply net w player_name i)))
     ∧ successful (attempt_reply net w player_name k) = Some payload
     ∧ fetch_player_stats net player_name max_retries base_delay w
       = (decode_stats payload, after_attempts w player_name base_delay k (k - 1)))
  ∨ (∃ k : nat,
       (1 ≤ k ≤ Z.to_nat max_retries)%nat
       ∧ (∀ i, (1 ≤ i < k)%nat → is_Some (transient (attempt_reply net w player_name i)))
       ∧ not_found (attempt_reply net w player_name k) = true
       ∧ fetch_player_stats net player_name max_retries base_delay w
         = (Raise (not_on_hiscores player_name),
            after_attempts w player_name base_delay k (k - 1)))
  ∨ (∃ e,
       (∀ i, (1 ≤ i ≤ Z.to_nat max_retries)%nat →
             is_Some (transient (attempt_reply net w player_name i)))
       ∧ transient (attempt_reply net w player_name (Z.to_nat max_retries)) = Some e
       ∧ fetch_player_stats net player_name max_retries base_delay w
         = (Raise e, after_attempts w player_name base_delay
                       (Z.to_nat max_retries) (Z.to_nat max_retries - 1))).
Proof.
  intros Hdelay Hmax. rewrite fetch_player_stats_of_text.
  destruct (fetch_text_cases net player_name max_retries base_delay w Hdelay Hmax)
    as [(k & payload & Hk & Hbefore & Hsucc & ->)
       |[(k & Hk & Hbefore & Hnf & ->)|(e & Hall & He & ->)]].
  - left. by exists k, payload.
  - right. left. by exists k.
  - right. right. by exists e.
Qed.

Lemma fetch_outcomes_witness :
  ∃ e, fetch_player_stats dead_net "Zezima" 2 1 empty_world
       = (Raise e, mkWorld ["Zezima"; "Zezima"] [1%Z] None).
Proof.
  destruct (fetch_outcomes dead_net "Zezima" 2 1 empty_world)
    as [(k & payload & _ & _ & Hsucc & _)|[(k & _ & _ & Hnf & _)|(e & _ & _ & Hfetch)]].
  - lia.
  - lia.
  - vm_compute in Hsucc. discriminate Hsucc.
  - vm_compute in Hnf. discriminate Hnf.
  - exists e. exact Hfetch.
Defined.

(** ** What decoding can raise *)

Lemma parse_process_char_raises r c e :
  parse_process_char r c = Raise e → is_csv_error e.
Proof.
  unfold parse_process_char, start_field, parse_add_char, is_csv_error.
  intros H. repeat case_match; simplify_eq; eauto.
Qed.

Lemma feed_line_raises line r e : feed_line r line = Raise e → is_csv_error e.
Proof.
  revert r. induction line as [|c line IH]; intros r; cbn [feed_line].
  - apply parse_process_char_raises.
  - destruct (parse_process_char r (Some c)) as [r'|e'] eqn:Hc; cbn [rbind].
    + apply IH.
    + intros [= <-]. by apply parse_process_char_raises in Hc.
Qed.

Lemma read_records_raises lines r e : read_records r lines = Raise e → is_csv_error e.
Proof.
  revert r. induction lines as [|line lines IH]; intros r; cbn [read_records].
  - by case_match.
  - destruct (feed_line r line) as [r'|e'] eqn:Hline; cbn [rbind].
    + destruct (state r'); try apply IH.
      destruct (read_records parse_reset lines) as [rows|e''] eqn:Hrest; cbn [rbind];
        [done|].
      intros [= <-]. by apply IH in Hrest.
    + intros [= <-]. by apply feed_line_raises in Hline.
Qed.

Lemma decode_skills_raises pairs (m : gmap string SkillEntry) e :
  decode_skills pairs m = Raise e → ∃ msg, e = ValueError msg.
Proof.
  revert m. induction pairs as [|[skill row] pairs IH]; intros m; cbn [decode_skills];
    [done|].
  destruct (unpack3 row) as [[[r lvl] x]|e'] eqn:Hun; cbn [rbind];
    [|intros [= <-]; by apply unpack3_raises_ValueError in Hun].
  destruct (py_int r) as [r'|e'] eqn:Hr; cbn [rbind];
    [|intros [= <-]; by apply py_int_raises_ValueError in Hr].
  destruct (py_int lvl) as [l'|e'] eqn:Hl; cbn [rbind];
    [|intros [= <-]; by apply py_int_raises_ValueError in Hl].
  destruct (py_int x) as [x'|e'] eqn:Hx; cbn [rbind];
    [|intros [= <-]; by apply py_int_raises_ValueError in Hx].
  apply IH.
Qed.

Lemma parse_rows_raises payload e : parse_rows payload = Raise e → is_csv_error e.
Proof. apply read_records_raises. Qed.

Lemma decode_rows_raises rows e : decode_rows rows = Raise e → ∃ msg, e = ValueError msg.
Proof.
  unfold decode_rows.
  destruct (decode_skills (zip SKILLS (take (length SKILLS) rows)) ∅)
    as [skill_stats|e'] eqn:Hskills; cbn [rbind]; [done|].
  intros [= <-]. by apply decode_skills_raises in Hskills.
Qed.

(** X4. Whatever decoding a payload raises is a [ValueError] (from
    unpacking a skill row or from [int]) or a [csv.Error] (from the
    reader); no other kind of exception comes out of the decoder. *)
Theorem decode_raises_only_value_or_csv_error (payload : string) (e : exn) :
  decode_stats payload = Raise e →
  (∃ msg, e = ValueError msg) ∨ (∃ msg, e = CsvError msg).
Proof.
  unfold decode_stats.
  destruct (parse_rows payload) as [rows|e'] eqn:Hrows; cbn [rbind].
  - intros Hdec. left. by apply (decode_rows_raises rows).
  - intros [= <-]. right. by apply (parse_rows_raises payload).
Qed.

Lemma decode_raises_only_value_or_csv_error_witness :
  (∃ msg, ValueError "not enough values to unpack (expected 3, got 2)" = ValueError msg)
  ∨ (∃ msg, ValueError "not enough values to unpack (expected 3, got 2)" = CsvError msg).
Proof.
  apply (decode_raises_only_value_or_csv_error "1,2").
  vm_compute. reflexivity.
Defined.

(** What a fetch raises is no transport error when it comes from the
    decoder. *)
Lemma decode_stats_raises_no_transport payload e :
  decode_stats payload = Raise e →
  is_RequestException e = false
  ∧ ((∃ msg, e = ValueError msg) ∨ (∃ msg, e = CsvError msg)).
Proof.
  unfold decode_stats.
  destruct (parse_rows payload) as [rows|e'] eqn:Hrows; cbn [rbind].
  - intros Hdec. destruct (decode_rows_raises rows e Hdec) as [msg ->]. eauto.
  - intros [= <-]. destruct (parse_rows_raises payload e' Hrows) as [msg ->]. eauto.
Qed.

Lemma transient_is_RequestException r e :
  transient r = Some e → is_RequestException e = true.
Proof.
  destruct r as [resp|msg]; simpl; intros H; repeat case_match; by simplify_eq.
Qed.

(** The requests and sleeps of a fetch. *)
Lemma fetch_player_stats_log net (player_name : string)
    (max_retries base_delay : Z) (w : World) :
  (0 ≤ base_delay)%Z → (1 ≤ max_retries)%Z →
  let out := fetch_player_stats net player_name max_retries base_delay w in
  ∃ n : nat,
    (1 ≤ n ≤ Z.to_nat max_retries)%nat
    ∧ requested out.2 = (requested w ++ repeat player_name n)%list
    ∧ slept out.2 = (slept w ++ backoff_delays base_delay (n - 1))%list
    ∧ dropped_file out.2 = dropped_file w.
Proof.
  intros Hdelay Hmax out. subst out. rewrite fetch_player_stats_of_text.
  destruct (fetch_text_cases net player_name max_retries base_delay w Hdelay Hmax)
    as [(k & payload & Hk & _ & _ & ->)|[(k & Hk & _ & _ & ->)|(e0 & _ & _ & ->)]];
    cbn [fst snd].
  - by exists k.
  - by exists k.
  - exists (Z.to_nat max_retries). repeat split; try done; lia.
Qed.

(** What a fetch raises: a transport error only once all attempts are
    used up, and otherwise a [ValueError] or a [csv.Error]. *)
Lemma fetch_player_stats_raises net (player_name : string)
    (max_retries base_delay : Z) (w : World) (e : exn) :
  (0 ≤ base_delay)%Z → (1 ≤ max_retries)%Z →
  let out := fetch_player_stats net player_name max_retries base_delay w in
  out.1 = Raise e →
  (is_RequestException e = true ∨ (∃ msg, e = ValueError msg) ∨ (∃ msg, e = CsvError msg))
  ∧ (is_RequestException e = true →
     requested out.2 = (requested w ++ repeat player_name (Z.to_nat max_retries))%list).
Proof.
  intros Hdelay Hmax out. subst out. rewrite fetch_player_stats_of_text.
  destruct (fetch_text_cases net player_name max_retries base_delay w Hdelay Hmax)
    as [(k & payload & _ & _ & _ & ->)|[(k & _ & _ & _ & ->)|(e0 & _ & He0 & ->)]];
    cbn [fst snd].
  - intros He. destruct (decode_stats_raises_no_transport payload e He) as [Hno Hkind].
    split; [by right|]. intros Hreq. by rewrite Hreq in Hno.
  - intros [= <-]. split; [right; left; by eexists|]. intros Hreq. discriminate Hreq.
  - intros [= <-]. split; [left; by apply (transient_is_RequestException _ _ He0)|].
    done.
Qed.

(** X5. With at least one attempt allowed and a non-negative delay, a
    fetch makes between one and [max_retries] requests, all for the given
    player, sleeps the linear back-off of all attempts but the last one
    made, and leaves the dropped-player file alone.  A [RequestException]
    leaves it only after all [max_retries] attempts, and it never raises
    anything but a [RequestException], a [ValueError] or a [csv.Error]. *)
Theorem fetch_effects_are_bounded net (player_name : string)
    (max_retries base_delay : Z) (w : World) :
  (0 ≤ base_delay)%Z → (1 ≤ max_retries)%Z →
  let out := fetch_player_stats net player_name max_retries base_delay w in
  ∃ n : nat,
    (1 ≤ n ≤ Z.to_nat max_retries)%nat
    ∧ requested out.2 = (requested w ++ repeat player_name n)%list
    ∧ slept out.2 = (slept w ++ backoff_delays base_delay (n - 1))%list
    ∧ dropped_file out.2 = dropped_file w
    ∧ (∀ e, out.1 = Raise e → is_RequestException e = true → n = Z.to_nat max_retries)
    ∧ (∀ e, out.1 = Raise e →
            is_RequestException e = true
            ∨ (∃ msg, e = ValueError msg) ∨ (∃ msg, e = CsvError msg)).
Proof.
  intros Hdelay Hmax out.
  destruct (fetch_player_stats_log net player_name max_retries base_delay w Hdelay Hmax)
    as (n & Hn & Hreq & Hslept & Hfile).
  fold out in Hreq, Hslept, Hfile.
  exists n. do 4 (split; [done|]). split.
  - intros e He Htransport.
    destruct (fetch_player_stats_raises net player_name max_retries base_delay w e
                Hdelay Hmax He) as [_ Hall].
    specialize (Hall Htransport). fold out in Hall. rewrite Hreq in Hall.
    apply app_inv_head in Hall. apply (f_equal length) in Hall.
    by rewrite !repeat_length in Hall.
  - intros e He.
    by destruct (fetch_player_stats_raises net player_name max_retries base_delay w e
                   Hdelay Hmax He) as [Hkind _].
Qed.

Lemma fetch_effects_are_bounded_witness :
  ∃ n : nat, (1 ≤ n ≤ 5)%nat
    ∧ requested (fetch_player_stats sample_net "Zezima" 5 3 empty_world).2
      = repeat "Zezima" n.
Proof.
  destruct (fetch_effects_are_bounded sample_net "Zezima" 5 3 empty_world)
    as (n & Hn & Hreq & _); [lia | lia |].
  exists n. split; [exact Hn | exact Hreq].
Defined.

(** X6. A negative [base_delay] turns the first transient failure that is
    not the last allowed attempt into a [ValueError] raised by
    [time.sleep]: one request, no retry, and an exception that is not the
    transport error. *)
Theorem negative_delay_stops_retrying net (player_name : string)
    (max_retries base_delay : Z) (w : World) :
  (base_delay < 0)%Z → (2 ≤ max_retries)%Z →
  is_Some (transient (attempt_reply net w player_name 1)) →
  fetch_player_stats net player_name max_retries base_delay w
  = (Raise (ValueError "sleep length must be non-negative"),
     mkWorld (requested w ++ [player_name])%list (slept w) (dropped_file w)).
Proof.
  intros Hneg Hmax [e He].
  rewrite fetch_player_stats_of_text. unfold fetch_text.
  rewrite py_range_attempts.
  replace (Z.to_nat max_retries) with (S (Z.to_nat max_retries - 1)) by lia.
  cbn [seq map retry_loop]. unfold try_except.
  unfold attempt_reply in He. rewrite Nat.add_0_r in He.
  destruct (attempt_transient net player_name w e He) as [-> ->].
  replace (Z.of_nat 1 =? max_retries)%Z with false by (symmetry; apply Z.eqb_neq; lia).
  unfold bind, time_sleep.
  replace (base_delay * Z.of_nat 1 <? 0)%Z with true by (symmetry; apply Z.ltb_lt; lia).
  reflexivity.
Qed.

Lemma negative_delay_stops_retrying_witness :
  fetch_player_stats dead_net "Zezima" 5 (-3) empty_world
  = (Raise (ValueError "sleep length must be non-negative"),
     mkWorld ["Zezima"] [] None).
Proof.
  apply (negative_delay_stops_retrying dead_net "Zezima" 5 (-3) empty_world).
  - lia.
  - lia.
  - vm_compute. eauto.
Defined.

(** * Further properties of the decoder *)

Lemma Ok_inj {A} (a b : A) : Ok a = Ok b → a = b.
Proof. by intros [= ->]. Qed.

Lemma unpack3_Ok row a b c : unpack3 row = Ok (a, b, c) → row = [a; b; c].
Proof.
  unfold unpack3. intros H.
  destruct row as [|a' [|b' [|c' [|? ?]]]]; simpl in H; repeat case_match; by simplify_eq.
Qed.

Lemma fst_zip_take {A B} (l : list A) (k : list B) :
  (zip l k).*1 = take (length k) l.
Proof.
  revert k. induction l as [|x l IH]; intros [|y k]; simpl; try done.
  by rewrite IH.
Qed.

Lemma NoDup_not_in_take {A} (l : list A) (i n : nat) (x : A) :
  NoDup l → l !! i = Some x → (n ≤ i)%nat → x ∉ take n l.
Proof.
  intros Hnd Hi Hn Hin.
  apply elem_of_take in Hin as (j & Hj & Hjn).
  pose proof (NoDup_lookup l i j x Hnd Hi Hj). lia.
Qed.

Lemma NoDup_take {A} (l : list A) (n : nat) : NoDup l → NoDup (take n l).
Proof. intros Hnd. eapply sublist_NoDup; [done | apply sublist_take]. Qed.

(** The skill loop stores, for each pair it is given, the three integers
    of the row, and touches no other key. *)
Lemma decode_skills_lookup pairs (m m' : gmap string SkillEntry) :
  NoDup pairs.*1 →
  decode_skills pairs m = Ok m' →
  (∀ i skill row, pairs !! i = Some (skill, row) →
     ∃ a b c r l x,
       row = [a; b; c] ∧ py_int a = Ok r ∧ py_int b = Ok l ∧ py_int c = Ok x
       ∧ m' !! skill = Some (mkSkill r l x))
  ∧ (∀ key, key ∉ pairs.*1 → m' !! key = m !! key).
Proof.
  revert m. induction pairs as [|[skill row] pairs IH]; intros m Hnd Hdec.
  - simpl in Hdec. injection Hdec as <-. split; [|done].
    intros i s r Hi. by rewrite lookup_nil in Hi.
  - simpl in Hnd. apply NoDup_cons in Hnd as [Hfresh Hnd].
    cbn [decode_skills] in Hdec.
    destruct (unpack3 row) as [[[a b] c]|e] eqn:Hun; cbn [rbind] in Hdec; [|done].
    destruct (py_int a) as [r|e] eqn:Ha; cbn [rbind] in Hdec; [|done].
    destruct (py_int b) as [l|e] eqn:Hb; cbn [rbind] in Hdec; [|done].
    destruct (py_int c) as [x|e] eqn:Hc; cbn [rbind] in Hdec; [|done].
    destruct (IH _ Hnd Hdec) as [Hrows Hother].
    split.
    + intros [|i] s r0 Hi; simpl in Hi.
      * injection Hi as <- <-. exists a, b, c, r, l, x.
        split; [by apply unpack3_Ok|]. do 3 (split; [done|]).
        rewrite Hother by done. apply lookup_insert_eq.
      * by apply (Hrows i).
    + intros key Hkey. simpl in Hkey. apply not_elem_of_cons in Hkey as [Hne Hkey].
      rewrite Hother by done. by apply lookup_insert_ne.
Qed.

Lemma decode_rows_skills (rows : list (list string)) (stats : PlayerStats) :
  decode_rows rows = Ok stats →
  (∀ i skill, SKILLS !! i = Some skill →
     match rows !! i with
     | Some row =>
         ∃ a b c r l x,
           row = [a; b; c] ∧ py_int a = Ok r ∧ py_int b = Ok l ∧ py_int c = Ok x
           ∧ skills stats !! skill = Some (mkSkill r l x)
     | None => skills stats !! skill = None
     end)
  ∧ (∀ key, key ∉ SKILLS → skills stats !! key = None).
Proof.
  intros Hdec. unfold decode_rows in Hdec.
  destruct (decode_skills (zip SKILLS (take (length SKILLS) rows)) ∅)
    as [skill_stats|e] eqn:Hskills; cbn [rbind] in Hdec; [|done].
  injection Hdec as <-. cbn [skills].
  assert (Hkeys : (zip SKILLS (take (length SKILLS) rows)).*1
                  = take (length (take (length SKILLS) rows)) SKILLS)
    by apply fst_zip_take.
  destruct (decode_skills_lookup _ _ _ (eq_ind_r NoDup
              (NoDup_take SKILLS _ SKILLS_NoDup) Hkeys) Hskills) as [Hrows Hother].
  split.
  - intros i skill Hi.
    pose proof (lookup_lt_Some _ _ _ Hi) as Hlt.
    destruct (rows !! i) as [row|] eqn:Hrow.
    + apply (Hrows i). apply lookup_zip_with_Some. exists skill, row.
      split; [done|]. split; [done|]. by rewrite lookup_take_lt.
    + rewrite Hother; [apply lookup_empty|]. rewrite Hkeys.
      apply (NoDup_not_in_take SKILLS i); [apply SKILLS_NoDup | done|].
      apply lookup_ge_None in Hrow. rewrite length_take. lia.
  - intros key Hkey. rewrite Hother; [apply lookup_empty|]. rewrite Hkeys.
    intros Hin. apply Hkey. apply elem_of_take in Hin as (j & Hj & _).
    by apply list_elem_of_lookup_2 in Hj.
Qed.

(** X7. Skills are decoded by position: when decoding succeeds, the
    [i]-th skill of the registry holds the three integers of row [i] as
    rank, level and experience; a skill whose row is missing gets no entry
    at all (and no error), and no entry is stored under any other name. *)
Theorem skills_are_decoded_by_position (payload : string) (rows : list (list string))
    (stats : PlayerStats) :
  parse_rows payload = Ok rows →
  decode_stats payload = Ok stats →
  (∀ i skill, SKILLS !! i = Some skill →
     match rows !! i with
     | Some row =>
         ∃ a b c r l x,
           row = [a; b; c] ∧ py_int a = Ok r ∧ py_int b = Ok l ∧ py_int c = Ok x
           ∧ skills stats !! skill = Some (mkSkill r l x)
     | None => skills stats !! skill = None
     end)
  ∧ (∀ key, key ∉ SKILLS → skills stats !! key = None).
Proof.
  intros Hparse Hdec. rewrite (decode_stats_rows _ _ Hparse) in Hdec.
  exact (decode_rows_skills rows stats Hdec).
Qed.

Lemma skills_are_decoded_by_position_witness :
  ∃ stats, decode_stats short_payload = Ok stats
           ∧ skills stats !! "overall" = Some (mkSkill 1 2 3)
           ∧ skills stats !! "attack" = None.
Proof.
  assert (Hparse : parse_rows short_payload = Ok [["1"; "2"; "3"]]) by reflexivity.
  assert (Hdec : decode_stats short_payload
                 = Ok (mkStats {["overall" := mkSkill 1 2 3]} ∅))
    by (vm_compute; reflexivity).
  exists (mkStats {["overall" := mkSkill 1 2 3]} ∅). split; [exact Hdec|].
  destruct (skills_are_decoded_by_position short_payload [["1"; "2"; "3"]] _
              Hparse Hdec) as [Hpos _].
  split.
  - specialize (Hpos 0%nat "overall" eq_refl). cbn [lookup list_lookup] in Hpos.
    destruct Hpos as (a & b & c & r & l & x & Hrow & Ha & Hb & Hc & Hskill).
    rewrite Hskill. injection Hrow as <- <- <-.
    vm_compute in Ha, Hb, Hc.
    injection Ha as <-. injection Hb as <-. injection Hc as <-. reflexivity.
  - exact (Hpos 1%nat "attack" eq_refl).
Defined.

Lemma decode_bosses_is_Some pairs boss :
  NoDup pairs.*1 →
  is_Some (decode_bosses pairs !! boss) ↔ boss ∈ pairs.*1.
Proof.
  intros Hnd. split.
  - intros Hsome. destruct (decide (boss ∈ pairs.*1)) as [|Hnot]; [done|].
    unfold decode_bosses in Hsome.
    rewrite decode_bosses_from_miss, lookup_empty in Hsome by done.
    by destruct Hsome.
  - intros Hin. apply list_elem_of_fmap in Hin as ([name row] & -> & Hin).
    apply list_elem_of_lookup in Hin as [i Hi]. cbn [fst].
    rewrite (decode_bosses_lookup pairs i name row) by done. by eexists.
Qed.

(** X8. The boss dictionary is all or nothing: when decoding succeeds it
    is empty (fewer activity rows than bosses) or has an entry for every
    boss of the registry and for no other name. *)
Theorem bosses_are_all_or_nothing (rows : list (list string)) (stats : PlayerStats) :
  decode_rows rows = Ok stats →
  ((length (drop (length SKILLS) rows) < length BOSSES)%nat ∧ bosses stats = ∅)
  ∨ ((length BOSSES ≤ length (drop (length SKILLS) rows))%nat
     ∧ ∀ boss, is_Some (bosses stats !! boss) ↔ boss ∈ BOSSES).
Proof.
  unfold decode_rows. intros Hdec.
  destruct (decode_skills (zip SKILLS (take (length SKILLS) rows)) ∅)
    as [skill_stats|e]; cbn [rbind] in Hdec; [|done].
  apply Ok_inj in Hdec. subst stats. cbn [bosses].
  destruct (Nat.leb_spec (length BOSSES) (length (drop (length SKILLS) rows)))
    as [Hge|Hlt].
  - right. split; [done|]. intros boss.
    rewrite slice_from_end_bosses.
    assert (Hkeys : (zip BOSSES (drop (length (drop (length SKILLS) rows) - length BOSSES)
                                   (drop (length SKILLS) rows))).*1 = BOSSES).
    { rewrite fst_zip; [done|]. rewrite length_drop. lia. }
    pose proof (decode_bosses_is_Some
                  (zip BOSSES (drop (length (drop (length SKILLS) rows) - length BOSSES)
                                 (drop (length SKILLS) rows))) boss) as Hiff.
    rewrite Hkeys in Hiff. apply Hiff. apply BOSSES_NoDup.
  - left. split; [done|]. by rewrite zip_nil_r.
Qed.

Lemma bosses_are_all_or_nothing_witness :
  ∃ stats, decode_rows few_activities_rows = Ok stats ∧ bosses stats = ∅.
Proof.
  destruct (skill_block_decodes few_activities_rows) as (skill_stats & Hskills & _);
    [vm_compute; reflexivity|].
  assert (Hdec : decode_rows few_activities_rows = Ok (mkStats skill_stats ∅)).
  { unfold decode_rows. rewrite Hskills. reflexivity. }
  exists (mkStats skill_stats ∅). split; [exact Hdec|].
  destruct (bosses_are_all_or_nothing few_activities_rows _ Hdec) as [[_ He]|[Hge _]].
  - exact He.
  - vm_compute in Hge. lia.
Defined.

Lemma decode_stats_complete (payload : string) (rows : list (list string)) :
  parse_rows payload = Ok rows →
  skill_block_ok rows = true →
  ∃ stats, decode_stats payload = Ok stats ∧ complete stats.
Proof.
  intros Hparse Hblock.
  destruct (skill_block_decodes rows Hblock) as (skill_stats & Hskills & Hall).
  eexists. split.
  - rewrite (decode_stats_rows _ _ Hparse). unfold decode_rows.
    rewrite Hskills. cbn [rbind]. reflexivity.
  - exact Hall.
Qed.

(** X9. A payload that [csv.reader] splits into rows, the first 25 of
    which are well-formed skill rows, decodes whatever those rows hold
    after the skill block, and the statistics have an entry for every
    skill, so that building the player's row cannot raise. *)
Theorem well_formed_payload_gives_a_row (payload : string) (rows : list (list string)) :
  parse_rows payload = Ok rows →
  skill_block_ok rows = true →
  ∃ stats,
    decode_stats payload = Ok stats
    ∧ complete stats
    ∧ ∀ name today, is_ok (build_row name today stats) = true.
Proof.
  intros Hparse Hblock.
  destruct (decode_stats_complete payload rows Hparse Hblock) as (stats & Hdec & Hall).
  exists stats. split; [exact Hdec|]. split; [exact Hall|].
  intros name today. unfold build_row.
  edestruct skill_columns_total as [row' ->]; [exact Hall|]. reflexivity.
Qed.

Lemma well_formed_payload_gives_a_row_witness :
  ∃ stats, decode_stats full_payload = Ok stats ∧ complete stats.
Proof.
  destruct (well_formed_payload_gives_a_row full_payload full_rows)
    as (stats & Hdec & Hcomplete & _).
  - vm_compute. reflexivity.
  - vm_compute. reflexivity.
  - exists stats. split; [exact Hdec | exact Hcomplete].
Defined.

(** * Further properties of the panel rows *)

Lemma assign_app (row : gmap string Cell) items1 items2 :
  assign row (items1 ++ items2) = assign (assign row items1) items2.
Proof. apply fold_left_app. Qed.

Lemma assign_lookup_miss items (row : gmap string Cell) key :
  key ∉ items.*1 → assign row items !! key = row !! key.
Proof.
  revert row. induction items as [|[k v] items IH]; intros row Hnot; [done|].
  simpl in Hnot. apply not_elem_of_cons in Hnot as [Hne Hnot].
  cbn [assign fold_left]. fold (assign (<[k:=v]> row) items).
  rewrite IH by done. by apply lookup_insert_ne.
Qed.

Lemma assign_lookup items (row : gmap string Cell) key value :
  NoDup items.*1 → (key, value) ∈ items → assign row items !! key = Some value.
Proof.
  revert row. induction items as [|[k v] items IH]; intros row Hnd Hin;
    [by apply elem_of_nil in Hin|].
  simpl in Hnd. apply NoDup_cons in Hnd as [Hfresh Hnd].
  cbn [assign fold_left]. fold (assign (<[k:=v]> row) items).
  apply elem_of_cons in Hin as [Heq|Hin].
  - injection Heq as -> ->. rewrite assign_lookup_miss by done. apply lookup_insert_eq.
  - by apply IH.
Qed.

Lemma assign_is_Some items key :
  is_Some (assign ∅ items !! key) ↔ key ∈ items.*1.
Proof.
  split.
  - intros Hsome. destruct (decide (key ∈ items.*1)) as [|Hnot]; [done|].
    rewrite assign_lookup_miss, lookup_empty in Hsome by done. by destruct Hsome.
  - revert key. generalize (∅ : gmap string Cell).
    induction items as [|[k v] items IH]; intros row key Hin;
      [by apply elem_of_nil in Hin|].
    cbn [assign fold_left]. fold (assign (<[k:=v]> row) items).
    destruct (decide (key ∈ items.*1)) as [Hlater|Hnot]; [by apply IH|].
    rewrite assign_lookup_miss by done.
    simpl in Hin. apply elem_of_cons in Hin as [->|Hin]; [|done].
    rewrite lookup_insert_eq. by eexists.
Qed.

Lemma skill_columns_items todo stats (row row' : gmap string Cell) :
  skill_columns todo stats row = Ok row' →
  row' = assign row (todo ≫= skill_items stats).
Proof.
  revert row. induction todo as [|skill todo IH]; intros row Hcols.
  - simpl in Hcols. by apply Ok_inj in Hcols.
  - cbn [skill_columns] in Hcols. rewrite bind_cons, assign_app.
    unfold skill_items at 1.
    destruct (skills stats !! skill) as [vals|]; [|done].
    by apply IH in Hcols.
Qed.

Lemma boss_columns_items todo stats (row : gmap string Cell) :
  boss_columns todo stats row = assign row (todo ≫= boss_items stats).
Proof.
  revert row. induction todo as [|boss todo IH]; intros row; [done|].
  rewrite bind_cons, assign_app. unfold boss_columns in *. cbn [fold_left].
  by rewrite IH.
Qed.

Lemma build_row_items name today stats row :
  build_row name today stats = Ok row → row = assign ∅ (row_items name today stats).
Proof.
  unfold build_row, row_items. intros Hrow.
  destruct (skill_columns SKILLS stats _) as [row1|e] eqn:Hskills; cbn [rbind] in Hrow;
    [|done].
  apply Ok_inj in Hrow. subst row.
  apply skill_columns_items in Hskills. subst row1.
  by rewrite boss_columns_items, !assign_app.
Qed.

Lemma skill_items_keys todo stats :
  (∀ skill, skill ∈ todo → is_Some (skills stats !! skill)) →
  (todo ≫= skill_items stats).*1 = todo ≫= skill_column_names.
Proof.
  induction todo as [|skill todo IH]; intros Hall; [done|].
  rewrite !bind_cons, fmap_app, IH
    by (intros s Hs; apply Hall; by apply list_elem_of_further).
  f_equal. unfold skill_items.
  by destruct (Hall skill (list_elem_of_here _ _)) as [vals ->].
Qed.

Lemma boss_items_keys todo stats :
  (todo ≫= boss_items stats).*1 = todo ≫= boss_column_names.
Proof.
  induction todo as [|boss todo IH]; [done|].
  by rewrite !bind_cons, fmap_app, IH.
Qed.

Lemma row_items_keys name today stats :
  complete stats → (row_items name today stats).*1 = row_columns.
Proof.
  intros Hcomplete. unfold row_items, row_columns.
  by rewrite !fmap_app, skill_items_keys, boss_items_keys.
Qed.

Lemma row_columns_NoDup : NoDup row_columns.
Proof. apply (bool_decide_unpack _). vm_compute. exact I. Qed.

(** For complete statistics the row is built, and it holds the value of
    each assignment made for it: no column is assigned twice. *)
Lemma build_row_assigns (name today : string) (stats : PlayerStats) :
  complete stats →
  ∃ row,
    build_row name today stats = Ok row
    ∧ (∀ key value, (key, value) ∈ row_items name today stats → row !! key = Some value)
    ∧ (∀ key, is_Some (row !! key) ↔ key ∈ row_columns).
Proof.
  intros Hcomplete.
  destruct (skill_columns_total SKILLS stats
              (<["date" := CStr today]> (<["player_name" := CStr name]> ∅)))
    as [row1 Hrow1]; [done|].
  assert (Hrow : build_row name today stats = Ok (boss_columns BOSSES stats row1)).
  { unfold build_row. by rewrite Hrow1. }
  exists (boss_columns BOSSES stats row1). split; [done|].
  rewrite (build_row_items _ _ _ _ Hrow).
  assert (Hnd : NoDup (row_items name today stats).*1).
  { rewrite row_items_keys by done. apply row_columns_NoDup. }
  split.
  - intros key value. by apply assign_lookup.
  - intros key. rewrite assign_is_Some. by rewrite row_items_keys.
Qed.

Lemma row_items_name name today stats :
  ("player_name", CStr name) ∈ row_items name today stats.
Proof. unfold row_items. apply elem_of_app. left. apply list_elem_of_here. Qed.

Lemma row_items_date name today stats :
  ("date", CStr today) ∈ row_items name today stats.
Proof.
  unfold row_items. apply elem_of_app. left.
  apply list_elem_of_further, list_elem_of_here.
Qed.

(** X10. The row of a player whose statistics are complete: it is built
    without error, names the player and the date, carries for every skill
    its level, experience and rank and for every boss the kill count and
    rank of its entry ([None] where the entry has none), and has exactly
    the columns of [row_columns], the same for every player. *)
Theorem build_row_holds_the_stats (name today : string) (stats : PlayerStats) :
  complete stats →
  ∃ row,
    build_row name today stats = Ok row
    ∧ row !! "player_name" = Some (CStr name)
    ∧ row !! "date" = Some (CStr today)
    ∧ (∀ skill vals, skill ∈ SKILLS → skills stats !! skill = Some vals →
         row !! (skill +:+ "_level") = Some (CInt (level vals))
         ∧ row !! (skill +:+ "_xp") = Some (CInt (xp vals))
         ∧ row !! (skill +:+ "_rank") = Some (CInt (rank vals)))
    ∧ (∀ boss, boss ∈ BOSSES →
         row !! (boss +:+ "_kc") = Some (opt_cell (kc (boss_entry stats boss)))
         ∧ row !! (boss +:+ "_rank") = Some (opt_cell (boss_rank (boss_entry stats boss))))
    ∧ (∀ key, is_Some (row !! key) ↔ key ∈ row_columns).
Proof.
  intros Hcomplete.
  destruct (build_row_assigns name today stats Hcomplete) as (row & Hrow & Hget & Hkeys).
  exists row. split; [done|].
  split; [apply Hget, row_items_name|].
  split; [apply Hget, row_items_date|].
  split; [|split; [|done]].
  - intros skill vals Hskill Hvals.
    assert (Hin : ∀ item, item ∈ skill_items stats skill →
                    item ∈ row_items name today stats).
    { intros item Hitem. unfold row_items. apply elem_of_app. right.
      apply elem_of_app. left. apply list_elem_of_bind. eauto. }
    unfold skill_items in Hin. rewrite Hvals in Hin.
    repeat split; apply Hget, Hin.
    + apply list_elem_of_here.
    + apply list_elem_of_further, list_elem_of_here.
    + do 2 apply list_elem_of_further. apply list_elem_of_here.
  - intros boss Hboss.
    assert (Hin : ∀ item, item ∈ boss_items stats boss →
                    item ∈ row_items name today stats).
    { intros item Hitem. unfold row_items. apply elem_of_app. right.
      apply elem_of_app. right. apply list_elem_of_bind. eauto. }
    split; apply Hget, Hin.
    + apply list_elem_of_here.
    + apply list_elem_of_further, list_elem_of_here.
Qed.

Lemma build_row_holds_the_stats_witness :
  ∃ stats row,
    decode_stats full_payload = Ok stats
    ∧ build_row "Zezima" "2026-01-01" stats = Ok row
    ∧ row !! "player_name" = Some (CStr "Zezima")
    ∧ row !! "date" = Some (CStr "2026-01-01").
Proof.
  destruct (decode_stats_complete full_payload full_rows)
    as (stats & Hdec & Hcomplete);
    [vm_compute; reflexivity | vm_compute; reflexivity |].
  destruct (build_row_holds_the_stats "Zezima" "2026-01-01" stats Hcomplete)
    as (row & Hrow & Hname & Hdate & _).
  exists stats, row. split; [exact Hdec|]. split; [exact Hrow|].
  split; [exact Hname | exact Hdate].
Defined.

(** * Further properties of the batch loop *)

Lemma skill_columns_Ok_complete todo stats (row row' : gmap string Cell) :
  skill_columns todo stats row = Ok row' →
  ∀ skill, skill ∈ todo → is_Some (skills stats !! skill).
Proof.
  revert row. induction todo as [|s todo IH]; intros row Hcols skill Hin;
    [by apply elem_of_nil in Hin|].
  cbn [skill_columns] in Hcols.
  destruct (skills stats !! s) as [vals|] eqn:Hs; [|done].
  apply elem_of_cons in Hin as [->|Hin]; [by rewrite Hs | by apply (IH _ Hcols)].
Qed.

Lemma build_row_Ok_complete name today stats row :
  build_row name today stats = Ok row → complete stats.
Proof.
  unfold build_row. intros Hrow.
  destruct (skill_columns SKILLS stats _) as [row1|e] eqn:Hskills; [|done].
  intros skill. by apply (skill_columns_Ok_complete _ _ _ _ Hskills).
Qed.

Lemma build_row_raises_KeyError name today stats e :
  build_row name today stats = Raise e → ∃ skill, skill ∈ SKILLS ∧ e = KeyError skill.
Proof.
  unfold build_row. generalize (<["date" := CStr today]> (<["player_name" := CStr name]> (∅ : gmap string Cell))).
  generalize SKILLS. intros todo.
  induction todo as [|s todo IH]; intros row Hrow; [done|].
  cbn [skill_columns] in Hrow.
  destruct (skills stats !! s) as [vals|].
  - destruct (IH _ Hrow) as (skill & Hin & ->).
    exists skill. split; [by apply list_elem_of_further | done].
  - cbn [rbind] in Hrow. injection Hrow as <-.
    exists s. split; [apply list_elem_of_here | done].
Qed.

(** One turn of the loop, by what it does next: it goes on with the rest
    of the candidates in a world that differs from the one after the fetch
    at most by one appended name, keeping the rows or adding one; or it
    stops with the [KeyError] of a missing skill. *)
Lemma build_database_loop_turn net today name rest rows w :
  let out := fetch_player_stats net name 5 3 w in
  (build_database_loop net today (name :: rest) rows w
   = build_database_loop net today rest rows out.2
   ∧ ∃ e, out.1 = Raise e)
  ∨ (build_database_loop net today (name :: rest) rows w
     = build_database_loop net today rest rows (mark_dropped name out.2)
     ∧ ∃ msg, out.1 = Raise (ValueError msg))
  ∨ (∃ stats row,
       out.1 = Ok stats ∧ build_row name today stats = Ok row
       ∧ build_database_loop net today (name :: rest) rows w
         = build_database_loop net today rest (rows ++ [row])%list out.2)
  ∨ (∃ stats skill,
       out.1 = Ok stats ∧ skill ∈ SKILLS
       ∧ build_database_loop net today (name :: rest) rows w
         = (Raise (KeyError skill), out.2)).
Proof.
  cbv zeta. cbn [build_database_loop].
  pose proof (fetch_player_stats_raises net name 5 3 w) as Hfetch.
  destruct (fetch_player_stats net name 5 3 w) as [[stats|e] w1]; cbn [fst snd] in *.
  - destruct (build_row name today stats) as [row|e] eqn:Hrow.
    + right. right. left. by exists stats, row.
    + right. right. right.
      destruct (build_row_raises_KeyError _ _ _ _ Hrow) as (skill & Hin & ->).
      by exists stats, skill.
  - destruct (as_ValueError e) as [msg|] eqn:Hval; [|left; eauto].
    destruct (contains "not on hiscores" msg); [|left; eauto].
    right. left. split; [reflexivity|].
    destruct (Hfetch e) as [[Hreq|[[m ->]|[m ->]]] _]; [lia | lia | done | |by eexists|done].
    by rewrite (request_exception_is_no_ValueError e Hreq) in Hval.
Qed.

(** X11. The only exception that leaves [build_database] is the
    [KeyError] raised for a skill of the registry that the decoded
    statistics lack; no transport or decoding error of any candidate
    ever leaves it.  (Failures of the file system while the dropped-player
    file is written are not part of the world modelled here.) *)
Theorem build_database_raises_only_KeyError net (today : string)
    (player_names : list string) (w : World) (e : exn) :
  (build_database net today player_names w).1 = Raise e →
  ∃ skill, skill ∈ SKILLS ∧ e = KeyError skill.
Proof.
  unfold build_database. generalize (@nil (gmap string Cell)). revert w.
  induction player_names as [|name rest IH]; intros w rows Hout; [done|].
  destruct (build_database_loop_turn net today name rest rows w)
    as [[Heq _]|[[Heq _]|[(stats & row & _ & _ & Heq)|(stats & skill & _ & Hin & Heq)]]];
    rewrite Heq in Hout.
  - by apply (IH _ _ Hout).
  - by apply (IH _ _ Hout).
  - by apply (IH _ _ Hout).
  - injection Hout as <-. by exists skill.
Qed.

Lemma build_database_raises_only_KeyError_witness :
  ∃ skill, skill ∈ SKILLS ∧ KeyError "attack" = KeyError skill.
Proof.
  apply (build_database_raises_only_KeyError sample_net "2026-01-01"
           ["Shorty"; "Zezima"] empty_world).
  vm_compute. reflexivity.
Defined.

Lemma requests_of_cons name rest n counts :
  requests_of (name :: rest) (n :: counts) = (repeat name n ++ requests_of rest counts)%list.
Proof. reflexivity. Qed.

Lemma sleeps_of_cons n counts :
  sleeps_of (n :: counts) = (backoff_delays 3 (n - 1) ++ sleeps_of counts)%list.
Proof. reflexivity. Qed.

Lemma requests_of_elem player_names counts name :
  name ∈ requests_of player_names counts → name ∈ player_names.
Proof.
  revert counts. induction player_names as [|p rest IH]; intros [|n counts] Hin;
    try (by apply elem_of_nil in Hin).
  rewrite requests_of_cons in Hin. apply elem_of_app in Hin as [Hin|Hin].
  - apply list_elem_of_In, repeat_spec in Hin. subst. apply list_elem_of_here.
  - apply list_elem_of_further. by apply (IH counts).
Qed.

Lemma build_database_loop_log net today player_names rows w :
  let out := build_database_loop net today player_names rows w in
  ∃ counts : list nat,
    (length counts ≤ length player_names)%nat
    ∧ Forall (fun n => (1 ≤ n ≤ 5)%nat) counts
    ∧ requested out.2 = (requested w ++ requests_of player_names counts)%list
    ∧ slept out.2 = (slept w ++ sleeps_of counts)%list
    ∧ (is_ok out.1 = true → length counts = length player_names).
Proof.
  revert rows w. induction player_names as [|name rest IH]; intros rows w.
  - exists []. simpl. by rewrite !app_nil_r.
  - cbv zeta.
    destruct (fetch_player_stats_log net name 5 3 w)
      as (n & Hn & Hreq & Hslept & _); [lia..|].
    assert (Hcont : ∀ rows' w1,
              requested w1 = requested (fetch_player_stats net name 5 3 w).2 →
              slept w1 = slept (fetch_player_stats net name 5 3 w).2 →
              let out := build_database_loop net today rest rows' w1 in
              ∃ counts : list nat,
                (length counts ≤ length (name :: rest))%nat
                ∧ Forall (fun n => (1 ≤ n ≤ 5)%nat) counts
                ∧ requested out.2 = (requested w ++ requests_of (name :: rest) counts)%list
                ∧ slept out.2 = (slept w ++ sleeps_of counts)%list
                ∧ (is_ok out.1 = true → length counts = length (name :: rest))).
    { intros rows' w1 Hr Hs. cbv zeta.
      destruct (IH rows' w1) as (counts & Hlen & Hall & Hreq' & Hslept' & Hok).
      exists (n :: counts). split; [simpl; lia|].
      split; [apply Forall_cons; split; [simpl in Hn; lia | done]|].
      rewrite requests_of_cons, sleeps_of_cons, Hreq', Hslept', Hr, Hs, Hreq, Hslept.
      rewrite <- !app_assoc. split; [done|]. split; [done|].
      intros Hres. simpl. by rewrite Hok. }
    destruct (build_database_loop_turn net today name rest rows w)
      as [[-> _]|[[-> _]|[(stats & row & _ & _ & ->)|(stats & skill & _ & _ & ->)]]].
    + by apply Hcont.
    + destruct (mark_dropped_appends name (fetch_player_stats net name 5 3 w).2)
        as (_ & _ & Hr & Hs).
      by apply Hcont.
    + by apply Hcont.
    + exists [n]. cbn [fst snd]. split; [simpl; lia|].
      split; [apply Forall_cons; split; [simpl in Hn; lia | done]|].
      rewrite requests_of_cons, sleeps_of_cons, Hreq, Hslept.
      assert (requests_of rest [] = []) as -> by by destruct rest.
      rewrite !app_nil_r. done.
Qed.

(** X12. A batch asks the server for its candidates in list order, each
    one between one and five times before the next, and for nobody else;
    it sleeps only the back-off of the failed attempts (at most
    3 + 6 + 9 + 12 seconds per candidate); when it returns a table, every
    candidate was asked. *)
Theorem build_database_request_log net (today : string) (player_names : list string)
    (w : World) :
  let out := build_database net today player_names w in
  ∃ counts : list nat,
    (length counts ≤ length player_names)%nat
    ∧ Forall (fun n => (1 ≤ n ≤ 5)%nat) counts
    ∧ requested out.2 = (requested w ++ requests_of player_names counts)%list
    ∧ slept out.2 = (slept w ++ sleeps_of counts)%list
    ∧ (is_ok out.1 = true → length counts = length player_names).
Proof. apply build_database_loop_log. Qed.

Lemma build_database_request_log_witness :
  ∃ counts : list nat,
    Forall (fun n => (1 ≤ n ≤ 5)%nat) counts
    ∧ requested (build_database sample_net "2026-01-01" ["Zezima"; "GhostName"]
                   empty_world).2
      = requests_of ["Zezima"; "GhostName"] counts.
Proof.
  destruct (build_database_request_log sample_net "2026-01-01" ["Zezima"; "GhostName"]
              empty_world) as (counts & _ & Hall & Hreq & _).
  exists counts. split; [exact Hall | exact Hreq].
Defined.

Lemma dropped_after_mark name w marked :
  dropped_after (dropped_file (mark_dropped name w)) marked
  = dropped_after (dropped_file w) (name :: marked).
Proof.
  unfold mark_dropped, append_dropped_player, dropped_after. cbn [snd dropped_file].
  destruct (dropped_file w) as [content|], marked as [|m marked]; cbn [default map];
    try done.
  simpl. by rewrite <- app_assoc.
Qed.

Lemma build_database_loop_dropped net today player_names rows w :
  let out := build_database_loop net today player_names rows w in
  ∃ marked, marked `sublist_of` player_names
            ∧ dropped_file out.2 = dropped_after (dropped_file w) marked.
Proof.
  revert rows w. induction player_names as [|name rest IH]; intros rows w.
  - exists []. by split.
  - cbv zeta.
    destruct (fetch_player_stats_frame net name w) as [Hfile _]. cbv zeta in Hfile.
    destruct (build_database_loop_turn net today name rest rows w)
      as [[-> _]|[[-> _]|[(stats & row & _ & _ & ->)|(stats & skill & _ & _ & ->)]]].
    + destruct (IH rows (fetch_player_stats net name 5 3 w).2) as (marked & Hsub & ->).
      exists marked. split; [by apply sublist_cons|]. by rewrite Hfile.
    + destruct (IH rows (mark_dropped name (fetch_player_stats net name 5 3 w).2))
        as (marked & Hsub & ->).
      exists (name :: marked). split; [by apply sublist_skip|].
      rewrite dropped_after_mark. by rewrite Hfile.
    + destruct (IH (rows ++ [row])%list (fetch_player_stats net name 5 3 w).2)
        as (marked & Hsub & ->).
      exists marked. split; [by apply sublist_cons|]. by rewrite Hfile.
    + exists []. split; [apply sublist_nil_l|]. cbn [snd dropped_after]. by rewrite Hfile.
Qed.

(** X13. A batch only ever appends to the dropped-player file: what it
    leaves is the file it found followed by one record per marked player,
    the marked players being candidates in list order; a file that was
    absent gets the header once, before the first name, and stays absent
    when nobody is marked. *)
Theorem build_database_appends_candidates net (today : string)
    (player_names : list string) (w : World) :
  let out := build_database net today player_names w in
  ∃ marked, marked `sublist_of` player_names
            ∧ dropped_file out.2 = dropped_after (dropped_file w) marked
            ∧ (marked = [] → dropped_file out.2 = dropped_file w)
            ∧ (∀ content, dropped_file w = Some content →
                 dropped_file out.2 = Some (content ++ map (fun n => [n]) marked)%list)
            ∧ (dropped_file w = None → marked ≠ [] →
                 dropped_file out.2
                 = Some (["player_name"] :: map (fun n => [n]) marked)).
Proof.
  cbv zeta.
  destruct (build_database_loop_dropped net today player_names [] w)
    as (marked & Hsub & Hfile).
  exists marked. split; [done|]. split; [done|]. unfold build_database.
  rewrite Hfile. split; [by intros ->|]. split.
  - intros content ->. destruct marked; [by rewrite app_nil_r | done].
  - intros -> Hne. by destruct marked.
Qed.

Lemma build_database_appends_candidates_witness :
  ∃ marked,
    marked `sublist_of` ["Zezima"; "GhostName"]
    ∧ dropped_file (build_database sample_net "2026-01-01" ["Zezima"; "GhostName"]
                      (mkWorld [] [] (Some [["player_name"]; ["Old"]]))).2
      = Some ([["player_name"]; ["Old"]] ++ map (fun n => [n]) marked)%list.
Proof.
  destruct (build_database_appends_candidates sample_net "2026-01-01"
              ["Zezima"; "GhostName"] (mkWorld [] [] (Some [["player_name"]; ["Old"]])))
    as (marked & Hsub & _ & _ & Hsome & _).
  exists marked. split; [exact Hsub|].
  apply (Hsome [["player_name"]; ["Old"]]). reflexivity.
Defined.

Lemma build_row_Ok_cells name today stats row :
  build_row name today stats = Ok row →
  row !! "player_name" = Some (CStr name)
  ∧ row !! "date" = Some (CStr today)
  ∧ ∀ key, is_Some (row !! key) ↔ key ∈ row_columns.
Proof.
  intros Hrow.
  destruct (build_row_assigns name today stats
              (build_row_Ok_complete _ _ _ _ Hrow))
    as (row' & Hrow' & Hget & Hkeys).
  rewrite Hrow in Hrow'. apply Ok_inj in Hrow'. subst row'.
  split; [apply Hget, row_items_name|]. split; [apply Hget, row_items_date | done].
Qed.

Lemma build_database_loop_rows net today player_names rows w result :
  (build_database_loop net today player_names rows w).1 = Ok result →
  ∃ new kept,
    result = (rows ++ new)%list
    ∧ kept `sublist_of` player_names
    ∧ map (fun row : gmap string Cell => row !! "player_name") new
      = map (fun name => Some (CStr name)) kept
    ∧ Forall (fun row : gmap string Cell =>
                row !! "date" = Some (CStr today)
                ∧ ∀ key, is_Some (row !! key) ↔ key ∈ row_columns) new.
Proof.
  revert rows w. induction player_names as [|name rest IH]; intros rows w Hout.
  - simpl in Hout. apply Ok_inj in Hout. subst result.
    exists [], []. by rewrite app_nil_r.
  - destruct (build_database_loop_turn net today name rest rows w)
      as [[Heq _]|[[Heq _]|[(stats & row & _ & Hrow & Heq)|(stats & skill & _ & _ & Heq)]]];
      rewrite Heq in Hout.
    + destruct (IH _ _ Hout) as (new & kept & -> & Hsub & Hnames & Hall).
      exists new, kept. split; [done|]. split; [by apply sublist_cons | done].
    + destruct (IH _ _ Hout) as (new & kept & -> & Hsub & Hnames & Hall).
      exists new, kept. split; [done|]. split; [by apply sublist_cons | done].
    + destruct (IH _ _ Hout) as (new & kept & -> & Hsub & Hnames & Hall).
      destruct (build_row_Ok_cells _ _ _ _ Hrow) as (Hname & Hdate & Hkeys).
      exists (row :: new), (name :: kept). split; [by rewrite <- app_assoc|].
      split; [by apply sublist_skip|]. split.
      * cbn [map]. by rewrite Hname, Hnames.
      * by apply Forall_cons.
    + done.
Qed.

(** X14. The table a batch returns has its rows in candidate order, at
    most one per candidate: the players named by the rows form a
    subsequence of the candidate list; every row is dated with the day of
    the run and has exactly the columns of [row_columns]. *)
Theorem build_database_rows_follow_candidates net (today : string)
    (player_names : list string) (w : World) (table : list (gmap string Cell)) :
  (build_database net today player_names w).1 = Ok table →
  ∃ kept,
    kept `sublist_of` player_names
    ∧ map (fun row : gmap string Cell => row !! "player_name") table
      = map (fun name => Some (CStr name)) kept
    ∧ Forall (fun row : gmap string Cell =>
                row !! "date" = Some (CStr today)
                ∧ ∀ key, is_Some (row !! key) ↔ key ∈ row_columns) table.
Proof.
  intros Hout.
  destruct (build_database_loop_rows net today player_names [] w table Hout)
    as (new & kept & -> & Hsub & Hnames & Hall).
  by exists kept.
Qed.

(** A result whose cells under some columns are those of a single row is
    a table of one row. *)
Lemma row_cells_single keys (result : result (list (gmap string Cell))) cells :
  row_cells keys result = Ok [cells] →
  ∃ row, result = Ok [row] ∧ map (fun key => row !! key) keys = cells.
Proof.
  destruct result as [[|row [|row' rows]]|e]; cbn [row_cells map]; intros H;
    try discriminate H.
  apply Ok_inj in H. injection H as <-. by exists row.
Qed.

Lemma build_database_rows_follow_candidates_witness :
  ∃ row,
    (build_database sample_net "2026-01-01" ["Zezima"; "GhostName"] empty_world).1
    = Ok [row]
    ∧ ∃ kept,
        kept `sublist_of` ["Zezima"; "GhostName"]
        ∧ [row !! "player_name"] = map (fun name => Some (CStr name)) kept
        ∧ kept = ["Zezima"]
        ∧ row !! "date" = Some (CStr "2026-01-01")
        ∧ ∀ key, is_Some (row !! key) ↔ key ∈ row_columns.
Proof.
  destruct (row_cells_single ["player_name"]
              (build_database sample_net "2026-01-01" ["Zezima"; "GhostName"]
                 empty_world).1 [Some (CStr "Zezima")])
    as (row & Hout & Hname); [vm_compute; reflexivity|].
  exists row. split; [exact Hout|].
  destruct (build_database_rows_follow_candidates sample_net "2026-01-01"
              ["Zezima"; "GhostName"] empty_world [row] Hout)
    as (kept & Hsub & Hnames & Hall).
  exists kept. split; [exact Hsub|]. split; [exact Hnames|].
  apply Forall_cons in Hall as [[Hdate Hkeys] _].
  split; [|split; [exact Hdate | exact Hkeys]].
  cbn [map] in Hnames, Hname. injection Hname as Hname. rewrite Hname in Hnames.
  destruct kept as [|n1 [|n2 kept]]; cbn [map] in Hnames;
    [discriminate Hnames | | discriminate Hnames].
  injection Hnames as <-. reflexivity.
Defined.

Lemma requests_of_all player_names counts name :
  length counts = length player_names →
  Forall (fun n => (1 ≤ n ≤ 5)%nat) counts →
  name ∈ player_names → name ∈ requests_of player_names counts.
Proof.
  revert counts. induction player_names as [|p rest IH]; intros [|n counts] Hlen Hall Hin;
    try (by apply elem_of_nil in Hin); try discriminate Hlen.
  apply Forall_cons in Hall as [Hn Hall].
  rewrite requests_of_cons. apply elem_of_app.
  apply elem_of_cons in Hin as [->|Hin].
  - left. destruct n; [lia|]. apply list_elem_of_here.
  - right. apply IH; [by injection Hlen | done | done].
Qed.

(** X15. Filtering by the dropped set does what it is for: a run over
    the listed players never asks the server for a player of the dropped
    set and returns no row for one; when it returns a table, every listed
    player outside the set was asked. *)
Theorem dropped_players_are_not_fetched net (today : string)
    (all_player_names : list string) (dropped : gset string) (w : World) :
  let out := track_and_build net today all_player_names dropped w in
  (∀ name, name ∈ dropped → name ∈ requested out.2 → name ∈ requested w)
  ∧ (∀ table row name,
       out.1 = Ok table → row ∈ table → row !! "player_name" = Some (CStr name) →
       name ∈ all_player_names ∧ name ∉ dropped)
  ∧ (is_ok out.1 = true →
     ∀ name, name ∈ all_player_names → name ∉ dropped → name ∈ requested out.2).
Proof.
  cbv zeta. unfold track_and_build, build_database.
  set (tracked := filter (fun n => n ∉ dropped) all_player_names).
  destruct (build_database_loop_log net today tracked [] w)
    as (counts & Hlen & Hall & Hreq & _ & Hok).
  split; [|split].
  - intros name Hdropped Hin. rewrite Hreq in Hin.
    apply elem_of_app in Hin as [Hin|Hin]; [done|].
    apply requests_of_elem in Hin. apply list_elem_of_filter in Hin as [Hnot _].
    done.
  - intros table row name Hout Hrow Hname.
    destruct (build_database_loop_rows net today tracked [] w table Hout)
      as (new & kept & Hnew & Hsub & Hnames & _).
    cbn [app] in Hnew. subst new.
    assert (Hin : Some (CStr name) ∈ map (fun n => Some (CStr n)) kept).
    { rewrite <- Hnames, <- Hname.
      apply (list_elem_of_fmap_2 (fun r : gmap string Cell => r !! "player_name")).
      done. }
    apply list_elem_of_fmap in Hin as (n & Heq & Hn). injection Heq as ->.
    assert (Htracked : n ∈ tracked) by (by apply (elem_of_sublist kept)).
    apply list_elem_of_filter in Htracked as [Hnot Hlisted]. done.
  - intros Hres name Hlisted Hnot. rewrite Hreq. apply elem_of_app. right.
    apply requests_of_all; [by apply Hok | done|].
    by apply list_elem_of_filter.
Qed.

Lemma dropped_players_are_not_fetched_witness :
  "GhostName" ∉ requested
    (track_and_build sample_net "2026-01-01" ["Zezima"; "GhostName"]
       {["GhostName"]} empty_world).2.
Proof.
  intros Hin.
  destruct (dropped_players_are_not_fetched sample_net "2026-01-01"
              ["Zezima"; "GhostName"] {["GhostName"]} empty_world) as [Hnever _].
  specialize (Hnever "GhostName").
  apply elem_of_nil with (x := "GhostName"). apply Hnever; [|exact Hin].
  apply elem_of_singleton. reflexivity.
Defined.

(** * Complete and incomplete payloads in a batch *)

Lemma decoded_enough_rows_complete payload rows stats :
  parse_rows payload = Ok rows → decode_stats payload = Ok stats →
  (length SKILLS ≤ length rows)%nat → complete stats.
Proof.
  intros Hparse Hdec Hlen skill Hin.
  apply list_elem_of_lookup in Hin as [i Hi].
  rewrite (decode_stats_rows _ _ Hparse) in Hdec.
  destruct (decode_rows_skills rows stats Hdec) as [Hpos _].
  specialize (Hpos i skill Hi).
  destruct (rows !! i) as [row|] eqn:Hrow.
  - destruct Hpos as (a & b & c & r & l & x & _ & _ & _ & _ & ->). by eexists.
  - apply lookup_ge_None in Hrow. apply lookup_lt_Some in Hi. lia.
Qed.

Lemma fetch_Ok_payload net name max_retries base_delay w stats :
  (0 ≤ base_delay)%Z → (1 ≤ max_retries)%Z →
  (fetch_player_stats net name max_retries base_delay w).1 = Ok stats →
  ∃ (k : nat) payload,
    successful (attempt_reply net w name k) = Some payload
    ∧ decode_stats payload = Ok stats.
Proof.
  intros Hdelay Hmax Hout.
  rewrite fetch_player_stats_of_text in Hout.
  destruct (fetch_text_cases net name max_retries base_delay w Hdelay Hmax)
    as [(k & payload & _ & _ & Hsucc & Heq)|[(k & _ & _ & _ & Heq)|(e & _ & _ & Heq)]];
    rewrite Heq in Hout; cbn [fst] in Hout; [|done..].
  by exists k, payload.
Qed.

(** X16. If the server never serves a payload with fewer rows than there
    are skills, no candidate can stop a batch: [build_database] returns a
    table whatever the transport and decoding outcomes are, and every
    candidate of the list was asked. *)
Theorem batch_completes_on_full_payloads net (today : string)
    (player_names : list string) (w : World) :
  (∀ n name payload rows,
     successful (net n name) = Some payload → parse_rows payload = Ok rows →
     (length SKILLS ≤ length rows)%nat) →
  let out := build_database net today player_names w in
  (∃ table, out.1 = Ok table ∧ (length table ≤ length player_names)%nat)
  ∧ ∀ name, name ∈ player_names → name ∈ requested out.2.
Proof.
  intros Hfull out. subst out. unfold build_database.
  destruct (complete_stats_isolate_failures net today) with
    (player_names := player_names) (rows := @nil (gmap string Cell)) (w := w)
    as [(table & Htable & Hlen) [Hall _]].
  - intros name w1 stats Hout.
    destruct (fetch_Ok_payload net name 5 3 w1 stats) as (k & payload & Hsucc & Hdec);
      [lia | lia | done |].
    destruct (parse_rows payload) as [rows|e] eqn:Hparse;
      [|unfold decode_stats in Hdec; by rewrite Hparse in Hdec].
    apply (decoded_enough_rows_complete payload rows); [done | done|].
    by apply (Hfull (length (requested w1) + (k - 1))%nat name payload).
  - split; [|done]. by exists table.
Qed.

Lemma batch_completes_on_full_payloads_witness :
  ∃ table,
    (build_database steady_net "2026-01-01" ["Zezima"; "GhostName"] empty_world).1
    = Ok table.
Proof.
  destruct (batch_completes_on_full_payloads steady_net "2026-01-01"
              ["Zezima"; "GhostName"] empty_world) as [(table & Htable & _) _].
  - intros n name payload rows Hsucc Hparse. unfold steady_net in Hsucc.
    destruct (String.eqb name "GhostName"); [discriminate Hsucc|].
    injection Hsucc as <-.
    vm_compute in Hparse. injection Hparse as <-. vm_compute. lia.
  - by exists table.
Defined.

(** X17. A successful first reply whose payload decodes but has fewer
    rows than there are skills stops the batch at that candidate:
    [build_database] raises [KeyError] for the first skill without a row,
    after that one request, and asks for none of the remaining
    candidates. *)
Theorem short_payload_stops_batch net (today name : string) (rest : list string)
    (table : list (gmap string Cell)) (w : World) (payload : string)
    (rows : list (list string)) (stats : PlayerStats) :
  successful (attempt_reply net w name 1) = Some payload →
  parse_rows payload = Ok rows →
  decode_stats payload = Ok stats →
  (length rows < length SKILLS)%nat →
  ∃ skill,
    SKILLS !! length rows = Some skill
    ∧ build_database_loop net today (name :: rest) table w
      = (Raise (KeyError skill), record_request name w).
Proof.
  intros Hsucc Hparse Hdec Hshort.
  destruct (lookup_lt_is_Some_2 SKILLS (length rows) Hshort) as [skill Hskill].
  exists skill. split; [done|].
  assert (Hrows : decode_rows rows = Ok stats)
    by (by rewrite <- (decode_stats_rows _ _ Hparse)).
  destruct (decode_rows_skills rows stats Hrows) as [Hpos _].
  cbn [build_database_loop]. rewrite fetch_player_stats_of_text.
  rewrite (fetch_text_success net name 5 3 1 payload w); [|lia..| |done];
    [|intros i Hi; lia].
  rewrite Hdec. unfold build_row.
  rewrite (skill_columns_missing SKILLS stats _ skill
             (take (length rows) SKILLS) (drop (S (length rows)) SKILLS)).
  - cbn [rbind]. f_equal. unfold after_attempts, record_request, backoff_delays. simpl.
    by rewrite app_nil_r.
  - rewrite <- (take_drop_middle SKILLS (length rows) skill) at 1; done.
  - intros s Hs. apply elem_of_take in Hs as (i & Hi & Hlt).
    specialize (Hpos i s Hi).
    destruct (rows !! i) as [row|] eqn:Hrow.
    + destruct Hpos as (a & b & c & r & l & x & _ & _ & _ & _ & ->). by eexists.
    + apply lookup_ge_None in Hrow. lia.
  - specialize (Hpos (length rows) skill Hskill).
    by rewrite (lookup_ge_None_2 rows (length rows)) in Hpos.
Qed.

Lemma short_payload_stops_batch_witness :
  build_database sample_net "2026-01-01" ["Shorty"; "Zezima"] empty_world
  = (Raise (KeyError "attack"), mkWorld ["Shorty"] [] None).
Proof.
  destruct (short_payload_stops_batch sample_net "2026-01-01" "Shorty" ["Zezima"] []
              empty_world short_payload [["1"; "2"; "3"]]
              (mkStats {["overall" := mkSkill 1 2 3]} ∅))
    as (skill & Hskill & Hrun).
  - vm_compute. reflexivity.
  - vm_compute. reflexivity.
  - vm_compute. reflexivity.
  - vm_compute. lia.
  - unfold build_database. rewrite Hrun.
    vm_compute in Hskill. injection Hskill as <-. reflexivity.
Defined.

(** X18. Among the rows read as skills, the first one that has not
    exactly three integer fields makes the fetch raise a [ValueError],
    which is no [RequestException]; no further request is made for the
    player, and the sleeps are those of the transport failures before. *)
Theorem malformed_skill_row_is_not_retried net (player_name : string)
    (max_retries base_delay : Z) (k : nat) (payload : string)
    (before : list (list string)) (row : list string) (after : list (list string))
    (w : World) :
  (0 ≤ base_delay)%Z → (1 ≤ k)%nat → (Z.of_nat k ≤ max_retries)%Z →
  (∀ i, (1 ≤ i < k)%nat → is_Some (transient (attempt_reply net w player_name i))) →
  successful (attempt_reply net w player_name k) = Some payload →
  parse_rows payload = Ok (before ++ row :: after)%list →
  (length before < length SKILLS)%nat →
  Forall (fun r => skill_row_ok r = true) before →
  skill_row_ok row = false →
  ∃ msg,
    fetch_player_stats net player_name max_retries base_delay w
    = (Raise (ValueError msg),
       mkWorld (requested w ++ repeat player_name k)%list
               (slept w ++ backoff_delays base_delay (k - 1))%list
               (dropped_file w))
    ∧ is_RequestException (ValueError msg) = false.
Proof.
  intros Hdelay Hk Hmax Hfail Hsucc Hparse Hlen Hok Hbad.
  destruct (malformed_skill_row_not_retried net player_name max_retries base_delay k
              payload before row after w) as [msg Hfetch]; try done.
  by exists msg.
Qed.

Lemma malformed_skill_row_is_not_retried_witness :
  ∃ msg,
    fetch_player_stats sample_net "Tricky" 5 3 empty_world
    = (Raise (ValueError msg), mkWorld ["Tricky"] [] None).
Proof.
  destruct (malformed_skill_row_is_not_retried sample_net "Tricky" 5 3 1
              misleading_payload [] ["not on hiscores"; "1"; "1"] [] empty_world)
    as (msg & Hfetch & _).
  - lia.
  - lia.
  - lia.
  - intros i Hi. lia.
  - vm_compute. reflexivity.
  - vm_compute. reflexivity.
  - vm_compute. lia.
  - apply Forall_nil. exact I.
  - vm_compute. reflexivity.
  - exists msg. exact Hfetch.
Defined.

(** * A candidate from reply to row or to the dropped-player file *)

(** X19. A candidate the server reports as absent (a 404, possibly after
    transient failures) is marked as dropped whatever its name is: the
    name is appended to the dropped-player file at once, no row is added,
    and the batch goes on with the next candidate. *)
Theorem absent_candidate_is_marked_dropped net (today name : string)
    (rest : list string) (table : list (gmap string Cell)) (k : nat) (w : World) :
  (1 ≤ k ≤ 5)%nat →
  (∀ i, (1 ≤ i < k)%nat → is_Some (transient (attempt_reply net w name i))) →
  not_found (attempt_reply net w name k) = true →
  let w' := mark_dropped name (after_attempts w name 3 k (k - 1)) in
  build_database_loop net today (name :: rest) table w
  = build_database_loop net today rest table w'
  ∧ dropped_file w' = dropped_after (dropped_file w) [name]
  ∧ requested w' = (requested w ++ repeat name k)%list.
Proof.
  intros Hk Hfail Hnf w'. subst w'. split; [|split].
  - cbn [build_database_loop].
    rewrite fetch_player_stats_of_text.
    rewrite (fetch_text_not_found_after net name 5 3 k w) by (done || lia).
    destruct (not_on_hiscores_message name) as (msg & -> & ->). reflexivity.
  - change (dropped_file (mark_dropped name (after_attempts w name 3 k (k - 1))))
      with (dropped_after
              (dropped_file (mark_dropped name (after_attempts w name 3 k (k - 1)))) []).
    by rewrite dropped_after_mark.
  - by destruct (mark_dropped_appends name (after_attempts w name 3 k (k - 1)))
      as (_ & _ & -> & _).
Qed.

Lemma absent_candidate_is_marked_dropped_witness :
  build_database late_404_net "2026-01-01" ["Zezima"] empty_world
  = (Ok [], mkWorld ["Zezima"; "Zezima"; "Zezima"] [3%Z; 6%Z]
              (Some [["player_name"]; ["Zezima"]])).
Proof.
  destruct (absent_candidate_is_marked_dropped late_404_net "2026-01-01" "Zezima"
              [] [] 3 empty_world) as [Hrun _].
  - lia.
  - intros i Hi. assert (i = 1 ∨ i = 2)%nat as [-> | ->] by lia; vm_compute; eauto.
  - vm_compute. reflexivity.
  - unfold build_database. rewrite Hrun. reflexivity.
Defined.

(** X20. A candidate whose payload arrives within the five attempts, is
    split into rows by [csv.reader] and has a well-formed skill block gets
    its row: the batch goes on with one more row, which names the
    candidate and the day, and the dropped-player file is as before. *)
Theorem decoded_candidate_gets_a_row net (today name : string)
    (rest : list string) (table : list (gmap string Cell)) (k : nat) (w : World)
    (payload : string) (rows : list (list string)) :
  (1 ≤ k ≤ 5)%nat →
  (∀ i, (1 ≤ i < k)%nat → is_Some (transient (attempt_reply net w name i))) →
  successful (attempt_reply net w name k) = Some payload →
  parse_rows payload = Ok rows →
  skill_block_ok rows = true →
  ∃ stats row,
    decode_stats payload = Ok stats
    ∧ build_row name today stats = Ok row
    ∧ row !! "player_name" = Some (CStr name)
    ∧ row !! "date" = Some (CStr today)
    ∧ build_database_loop net today (name :: rest) table w
      = build_database_loop net today rest (table ++ [row])%list
          (after_attempts w name 3 k (k - 1)).
Proof.
  intros Hk Hfail Hsucc Hparse Hblock.
  destruct (decode_stats_complete payload rows Hparse Hblock)
    as (stats & Hdec & Hcomplete).
  destruct (build_row_assigns name today stats Hcomplete) as (row & Hrow & Hget & _).
  pose proof (Hget _ _ (row_items_name name today stats)) as Hname.
  pose proof (Hget _ _ (row_items_date name today stats)) as Hdate.
  exists stats, row. do 4 (split; [done|]).
  cbn [build_database_loop]. rewrite fetch_player_stats_of_text.
  rewrite (fetch_text_success net name 5 3 k payload w) by (done || lia).
  by rewrite Hdec, Hrow.
Qed.

Lemma decoded_candidate_gets_a_row_witness :
  ∃ row,
    row !! "player_name" = Some (CStr "Zezima")
    ∧ build_database sample_net "2026-01-01" ["Zezima"] empty_world
      = (Ok [row], mkWorld ["Zezima"; "Zezima"; "Zezima"] [3%Z; 6%Z] None).
Proof.
  destruct (decoded_candidate_gets_a_row sample_net "2026-01-01" "Zezima" [] [] 3
              empty_world full_payload full_rows)
    as (stats & row & _ & _ & Hname & _ & Hrun).
  - lia.
  - intros i Hi. assert (i = 1 ∨ i = 2)%nat as [-> | ->] by lia; vm_compute; eauto.
  - vm_compute. reflexivity.
  - vm_compute. reflexivity.
  - vm_compute. reflexivity.
  - exists row. split; [exact Hname|].
    unfold build_database. rewrite Hrun. reflexivity.
Defined.
